(** * VoiceOfCode: complaint portal, role resolution and row-level policies

    A shallow embedding of the parts of the portal that decide who is an
    administrator, which rows an identity may touch, what a student
    submission sends to the backend and what the admin dashboard shows.

    React handlers become computations in a small effect monad [Eff]: the
    component state is threaded explicitly, every observable action (a
    backend request, a toast, a console line) is appended to a trace, and a
    JavaScript exception is a completion of its own so that [try], [catch]
    and [finally] can be written as in the source.  What the backend answers
    to a request is an argument of the handler.  The SQL migrations become
    functions over a record of tables. *)

From Stdlib Require Import String Ascii List Bool ZArith NArith Lia.
From Stdlib Require Import DecimalString.
Import ListNotations.
Open Scope string_scope.
Open Scope list_scope.

(** ** Values shared by all components *)

Definition uuid := string.

(** JavaScript truthiness of a string: only the empty string is falsy. *)
Definition truthy (s : string) : bool := negb (s =? "").

(** [a || b] on strings, as in [full_name || "Unknown"]. *)
Definition or_else (a : option string) (b : string) : string :=
  match a with
  | Some s => if truthy s then s else b
  | None => b
  end.

(** [s || null]. *)
Definition or_null (s : string) : option string :=
  if truthy s then Some s else None.

(** The reserved address, written out in AuthContext.tsx, in the trigger and
    in the create-admin function. *)
Definition bootstrap_email : string := "admin@brototype.com".

(** [userEmail === 'admin@brototype.com'] where [userEmail] may be
    [undefined]; also the SQL test [NEW.email = '...'], where a NULL email
    makes the test NULL and the [IF] takes its [ELSE] branch. *)
Definition is_bootstrap (email : option string) : bool :=
  match email with
  | Some e => e =? bootstrap_email
  | None => false
  end.

(** A browser [File]: name, size in bytes and MIME type. *)
Record File := mkFile {
  file_name : string;
  file_size : Z;
  file_type : string
}.

Inductive app_role := admin | student.

Definition app_role_eqb (a b : app_role) : bool :=
  match a, b with
  | admin, admin | student, student => true
  | _, _ => false
  end.

Inductive complaint_status := Pending | Under_Review | Resolved.

Definition complaint_status_eqb (a b : complaint_status) : bool :=
  match a, b with
  | Pending, Pending | Under_Review, Under_Review | Resolved, Resolved => true
  | _, _ => false
  end.

(** The text of a status, as the client sees it. *)
Definition status_text (s : complaint_status) : string :=
  match s with
  | Pending => "Pending"
  | Under_Review => "Under Review"
  | Resolved => "Resolved"
  end.

Inductive complaint_category := Technical | Academic | Behavior | Facility | Other.

Definition category_text (c : complaint_category) : string :=
  match c with
  | Technical => "Technical"
  | Academic => "Academic"
  | Behavior => "Behavior"
  | Facility => "Facility"
  | Other => "Other"
  end.

Definition all_categories : list complaint_category :=
  [Technical; Academic; Behavior; Facility; Other].

(** ** Observable effects of the client and of the edge function *)

(** The row sent by the student's insert. *)
Record complaint_insert := mkInsert {
  ins_user_id : uuid;
  ins_title : string;
  ins_category : complaint_category;
  ins_description : string;
  ins_file_url : option string
}.

(** The columns sent by the admin's update. *)
Record complaint_update := mkUpdate {
  upd_status : complaint_status;
  upd_admin_remarks : option string
}.

(** The argument of [auth.admin.createUser]. *)
Record create_user_params := mkCreateUser {
  cu_email : string;
  cu_password : string;
  cu_email_confirm : bool;
  cu_full_name : string
}.

Inductive net_call :=
| SelectAdminRole (user_id : uuid)
| SelectOwnComplaints (user_id : uuid)
| SelectAllComplaints
| SelectProfiles (ids : list uuid)
| StorageUpload (path : string) (f : File)
| InsertComplaint (row : complaint_insert)
| UpdateComplaint (id : uuid) (cols : complaint_update)
| ListUsers
| CreateUser (p : create_user_params).

(** Text shown in a toast: a literal of the source, or the default message
    the validation library attaches to an issue that has no custom one. *)
Inductive zod_code := too_small | too_big | invalid_enum_value.

Inductive toast_text :=
| Text (s : string)
| LibraryDefault (path : string) (code : zod_code).

Inductive effect :=
| Net (c : net_call)
| ToastError (t : toast_text)
| ToastSuccess (s : string)
| ConsoleLog (args : list string)
| ConsoleError (args : list string).

Definition is_net (e : effect) : bool :=
  match e with Net _ => true | _ => false end.

Definition is_toast (e : effect) : bool :=
  match e with ToastError _ | ToastSuccess _ => true | _ => false end.

Definition is_insert (e : effect) : bool :=
  match e with Net (InsertComplaint _) => true | _ => false end.

Definition is_create_user (e : effect) : bool :=
  match e with Net (CreateUser _) => true | _ => false end.

Definition is_update (e : effect) : bool :=
  match e with Net (UpdateComplaint _ _) => true | _ => false end.

Definition is_upload (e : effect) : bool :=
  match e with Net (StorageUpload _ _) => true | _ => false end.

(** ** The effect monad *)

Record zod_issue := mkIssue {
  issue_path : string;
  issue_code : zod_code;
  issue_message : option string
}.

Inductive js_error :=
| ZodError (errors : list zod_issue)
| TypeError (msg : string)
| BackendError (msg : string).

(** [error.message]; for a validation error the library renders the list
    of issues, which no caller here shows. *)
Definition error_message (e : js_error) : string :=
  match e with
  | ZodError _ => "ZodError"
  | TypeError m => m
  | BackendError m => m
  end.

Inductive completion (A : Type) :=
| Normal (a : A)
| Throw (e : js_error).
Arguments Normal {A} a.
Arguments Throw {A} e.

Module EffMonad.

Definition Eff (S A : Type) : Type := S -> completion A * S * list effect.

Definition ret {S A} (a : A) : Eff S A := fun s => (Normal a, s, []).

Definition bind {S A B} (m : Eff S A) (k : A -> Eff S B) : Eff S B :=
  fun s =>
    match m s with
    | (Normal a, s1, t1) =>
        match k a s1 with
        | (c, s2, t2) => (c, s2, t1 ++ t2)
        end
    | (Throw e, s1, t1) => (Throw e, s1, t1)
    end.

Definition emit {S} (e : effect) : Eff S unit := fun s => (Normal tt, s, [e]).

Definition modify {S} (f : S -> S) : Eff S unit := fun s => (Normal tt, f s, []).

Definition get {S} : Eff S S := fun s => (Normal s, s, []).

Definition throw {S A} (e : js_error) : Eff S A := fun s => (Throw e, s, []).

(** A call of an async function that is not awaited: its effects happen,
    but a rejection is not seen by the caller. *)
Definition detached {S A} (m : Eff S A) : Eff S unit :=
  fun s =>
    match m s with
    | (_, s1, t1) => (Normal tt, s1, t1)
    end.

(** [try { m } catch (e) { h e }] *)
Definition try_catch {S A} (m : Eff S A) (h : js_error -> Eff S A) : Eff S A :=
  fun s =>
    match m s with
    | (Normal a, s1, t1) => (Normal a, s1, t1)
    | (Throw e, s1, t1) =>
        match h e s1 with
        | (c, s2, t2) => (c, s2, t1 ++ t2)
        end
    end.

(** [try { m } finally { f }]: [f] runs on every way out of [m], an early
    [return] included, and the completion of [m] is kept unless [f] throws. *)
Definition finally {S A} (m : Eff S A) (f : Eff S unit) : Eff S A :=
  fun s =>
    match m s with
    | (c, s1, t1) =>
        match f s1 with
        | (Normal _, s2, t2) => (c, s2, t1 ++ t2)
        | (Throw e, s2, t2) => (Throw e, s2, t1 ++ t2)
        end
    end.

Definition state_of {S A} (r : completion A * S * list effect) : S := snd (fst r).
Definition trace_of {S A} (r : completion A * S * list effect) : list effect := snd r.
Definition value_of {S A} (r : completion A * S * list effect) : completion A := fst (fst r).

Module Notations.
Declare Scope eff_scope.
Delimit Scope eff_scope with eff.
Notation "x <- m ;; k" := (bind m (fun x => k))
  (at level 61, m at next level, right associativity) : eff_scope.
Notation "m ;; k" := (bind m (fun _ => k))
  (at level 61, right associativity) : eff_scope.
End Notations.

End EffMonad.

Import EffMonad EffMonad.Notations.

(** What a PostgREST, storage or auth request resolves to: the
    [{ data, error }] object, or a rejected promise (a transport failure,
    with its reason). *)
Inductive response (A : Type) :=
| Returned (data : option A) (error : option string)
| Rejected (reason : string).
Arguments Returned {A} data error.
Arguments Rejected {A} reason.

(** [.maybeSingle()]: no row gives [data = null], one row gives the row, more
    than one row is an error. *)
Definition maybeSingle {A} (rows : list A) : response A :=
  match rows with
  | [] => Returned None None
  | [r] => Returned (Some r) None
  | _ :: _ :: _ => Returned None (Some "PGRST116")
  end.

(** ** Database schema, policies and triggers (the SQL migrations) *)

Module Schema.

Record auth_user := mkUser {
  au_id : uuid;
  au_email : option string;
  au_meta_full_name : option string
}.

Record profile := mkProfile {
  p_id : uuid;
  p_full_name : string;
  p_email : string
}.

(** A [user_roles] row.  Its surrogate [id] (a generated UUID) is read
    nowhere and is left out. *)
Record user_role := mkRole {
  ur_user_id : uuid;
  ur_role : app_role
}.

Record complaint := mkComplaint {
  c_id : uuid;
  c_user_id : uuid;
  c_title : string;
  c_category : complaint_category;
  c_description : string;
  c_file_url : option string;
  c_status : complaint_status;
  c_admin_remarks : option string;
  c_created_at : Z;
  c_updated_at : Z
}.

Record db := mkDb {
  users : list auth_user;
  profiles : list profile;
  user_roles : list user_role;
  complaints : list complaint
}.

(** [auth.uid() = x]: NULL (no session) never equals anything. *)
Definition uid_is (caller : option uuid) (x : uuid) : bool :=
  match caller with
  | Some u => u =? x
  | None => false
  end.

(** [public.has_role(_user_id, _role)]: [SELECT EXISTS (...)], run as the
    definer, so no policy hides rows from it. *)
Definition has_role (d : db) (_user_id : option uuid) (_role : app_role) : bool :=
  existsb (fun r => uid_is _user_id (ur_user_id r) && app_role_eqb (ur_role r) _role)
          (user_roles d).

Inductive command := SELECT | INSERT | UPDATE | DELETE.

Definition command_eqb (a b : command) : bool :=
  match a, b with
  | SELECT, SELECT | INSERT, INSERT | UPDATE, UPDATE | DELETE, DELETE => true
  | _, _ => false
  end.

(** A policy on a table of rows [R]: the command it is [FOR] and its
    [USING] and [WITH CHECK] expressions, each over the database (for
    [has_role]), the caller ([auth.uid()]) and the row. *)
Record policy (R : Type) := mkPolicy {
  pol_name : string;
  pol_for : command;
  pol_using : option (db -> option uuid -> R -> bool);
  pol_with_check : option (db -> option uuid -> R -> bool)
}.
Arguments mkPolicy {R}.
Arguments pol_name {R}.
Arguments pol_for {R}.
Arguments pol_using {R}.
Arguments pol_with_check {R}.

Definition profiles_policies : list (policy profile) :=
  [ mkPolicy "Users can view their own profile" SELECT
      (Some (fun _ uid r => uid_is uid (p_id r))) None;
    mkPolicy "Users can update their own profile" UPDATE
      (Some (fun _ uid r => uid_is uid (p_id r))) None ].

Definition user_roles_policies : list (policy user_role) :=
  [ mkPolicy "Users can view their own roles" SELECT
      (Some (fun _ uid r => uid_is uid (ur_user_id r))) None ].

Definition complaints_policies : list (policy complaint) :=
  [ mkPolicy "Students can view their own complaints" SELECT
      (Some (fun _ uid r => uid_is uid (c_user_id r))) None;
    mkPolicy "Students can create complaints" INSERT
      None (Some (fun _ uid r => uid_is uid (c_user_id r)));
    mkPolicy "Students can update their own pending complaints" UPDATE
      (Some (fun _ uid r => uid_is uid (c_user_id r)
                            && complaint_status_eqb (c_status r) Pending)) None;
    mkPolicy "Students can delete their own pending complaints" DELETE
      (Some (fun _ uid r => uid_is uid (c_user_id r)
                            && complaint_status_eqb (c_status r) Pending)) None;
    mkPolicy "Admins can view all complaints" SELECT
      (Some (fun d uid _ => has_role d uid admin)) None;
    mkPolicy "Admins can update all complaints" UPDATE
      (Some (fun d uid _ => has_role d uid admin)) None ].

(** Row-level security is enabled on each table and every policy is
    permissive: an existing row is visible to a command when the [USING] of
    at least one policy for that command holds, and to no one when there is
    no such policy. *)
Definition using_holds {R} (d : db) (uid : option uuid) (r : R) (p : policy R) : bool :=
  match pol_using p with
  | Some e => e d uid r
  | None => true
  end.

Definition rls_using {R} (ps : list (policy R)) (cmd : command)
           (d : db) (uid : option uuid) (r : R) : bool :=
  existsb (fun p => command_eqb (pol_for p) cmd && using_holds d uid r p) ps.

(** The check on a row being written: the policy's [WITH CHECK], and for a
    policy that has none its [USING] expression. *)
Definition check_holds {R} (d : db) (uid : option uuid) (r : R) (p : policy R) : bool :=
  match pol_with_check p, pol_using p with
  | Some e, _ => e d uid r
  | None, Some e => e d uid r
  | None, None => true
  end.

Definition rls_check {R} (ps : list (policy R)) (cmd : command)
           (d : db) (uid : option uuid) (r : R) : bool :=
  existsb (fun p => command_eqb (pol_for p) cmd && check_holds d uid r p) ps.

(** *** Constraints checked by an insert *)

(** [profiles]: [id] is the primary key and references [auth.users(id)];
    [email] is [NOT NULL].  [None] is a constraint violation, which aborts
    the statement. *)
Definition insert_profile (id : uuid) (full_name : string) (email : option string)
           (d : db) : option db :=
  match email with
  | None => None
  | Some e =>
      if existsb (fun p => p_id p =? id) (profiles d) then None
      else if negb (existsb (fun u => au_id u =? id) (users d)) then None
      else Some (mkDb (users d) (profiles d ++ [mkProfile id full_name e])
                      (user_roles d) (complaints d))
  end.

(** [user_roles]: [UNIQUE(user_id, role)], and [user_id] references
    [auth.users(id)]. *)
Definition insert_user_role (user_id : uuid) (role : app_role) (d : db) : option db :=
  if existsb (fun r => (ur_user_id r =? user_id) && app_role_eqb (ur_role r) role)
             (user_roles d) then None
  else if negb (existsb (fun u => au_id u =? user_id) (users d)) then None
  else Some (mkDb (users d) (profiles d) (user_roles d ++ [mkRole user_id role])
                  (complaints d)).

(** [COALESCE(NEW.raw_user_meta_data->>'full_name', 'User')] *)
Definition coalesce (a : option string) (b : string) : string :=
  match a with Some s => s | None => b end.

(** *** [handle_new_user], as the later migration redefines it *)
Definition handle_new_user (NEW : auth_user) (d : db) : option db :=
  match insert_profile (au_id NEW) (coalesce (au_meta_full_name NEW) "User")
                       (au_email NEW) d with
  | None => None
  | Some d1 =>
      if is_bootstrap (au_email NEW)
      then insert_user_role (au_id NEW) admin d1
      else insert_user_role (au_id NEW) student d1
  end.

(** [handle_new_user] of the first migration, which the later one drops. *)
Definition handle_new_user_initial (NEW : auth_user) (d : db) : option db :=
  match insert_profile (au_id NEW) (coalesce (au_meta_full_name NEW) "User")
                       (au_email NEW) d with
  | None => None
  | Some d1 => insert_user_role (au_id NEW) student d1
  end.

(** An insert into [auth.users] with the trigger [on_auth_user_created]
    ([AFTER INSERT ... FOR EACH ROW]): the row is added, then the trigger
    function runs once on it; if either fails the whole statement does. *)
Definition insert_auth_user (NEW : auth_user) (d : db) : option db :=
  if existsb (fun u => au_id u =? au_id NEW) (users d) then None
  else handle_new_user NEW (mkDb (users d ++ [NEW]) (profiles d) (user_roles d)
                                 (complaints d)).

(** *** Update of a complaint *)

(** [update_updated_at_column], the [BEFORE UPDATE] trigger. *)
Definition update_updated_at_column (now : Z) (NEW : complaint) : complaint :=
  mkComplaint (c_id NEW) (c_user_id NEW) (c_title NEW) (c_category NEW)
              (c_description NEW) (c_file_url NEW) (c_status NEW)
              (c_admin_remarks NEW) (c_created_at NEW) now.

Definition set_columns (cols : complaint_update) (r : complaint) : complaint :=
  mkComplaint (c_id r) (c_user_id r) (c_title r) (c_category r)
              (c_description r) (c_file_url r) (upd_status cols)
              (upd_admin_remarks cols) (c_created_at r) (c_updated_at r).

(** [UPDATE complaints SET status = .., admin_remarks = .. WHERE id = ..] by
    [caller]: rows that do not match, or that no UPDATE policy shows to the
    caller, are left as they are; a row that is written must pass the check
    of an UPDATE policy, otherwise the statement fails ([None]). *)
Fixpoint update_rows (d : db) (caller : option uuid) (id : uuid)
         (cols : complaint_update) (now : Z) (rows : list complaint)
  : option (list complaint) :=
  match rows with
  | [] => Some []
  | r :: rest =>
      match update_rows d caller id cols now rest with
      | None => None
      | Some rest' =>
          if (c_id r =? id) && rls_using complaints_policies UPDATE d caller r then
            let r' := update_updated_at_column now (set_columns cols r) in
            if rls_check complaints_policies UPDATE d caller r'
            then Some (r' :: rest')
            else None
          else Some (r :: rest')
      end
  end.

Definition update_complaint (caller : option uuid) (id : uuid)
           (cols : complaint_update) (now : Z) (d : db) : option db :=
  match update_rows d caller id cols now (complaints d) with
  | Some rows => Some (mkDb (users d) (profiles d) (user_roles d) rows)
  | None => None
  end.

(** *** The storage bucket [complaint-files] *)

Definition file_size_limit : Z := 10485760.

Definition allowed_mime_types : list string :=
  [ "image/jpeg"; "image/png"; "image/gif"; "image/webp"; "application/pdf";
    "application/msword";
    "application/vnd.openxmlformats-officedocument.wordprocessingml.document" ].

Definition mime_allowed (t : string) : bool :=
  existsb (fun a => a =? t) allowed_mime_types.

(** *** Reads and inserts on [complaints] and [profiles] *)

(** The rows of [complaints] a caller's SELECT can see. *)
Definition visible_complaints (d : db) (caller : option uuid) : list complaint :=
  filter (rls_using complaints_policies SELECT d caller) (complaints d).

(** [ORDER BY created_at DESC], as an insertion sort: a row goes before the
    first row that is strictly older. *)
Fixpoint insert_desc (r : complaint) (l : list complaint) : list complaint :=
  match l with
  | [] => [r]
  | x :: rest =>
      if (c_created_at x <? c_created_at r)%Z then r :: l
      else x :: insert_desc r rest
  end.

Definition order_by_created_at_desc (l : list complaint) : list complaint :=
  fold_right insert_desc [] l.

(** [from("complaints").select("*").order("created_at", { ascending: false })]
    as [caller]. *)
Definition select_all_complaints (d : db) (caller : option uuid) : list complaint :=
  order_by_created_at_desc (visible_complaints d caller).

(** [from("profiles").select("id, full_name, email").in("id", ids)] as
    [caller]. *)
Definition select_profiles (d : db) (caller : option uuid) (ids : list uuid)
  : list profile :=
  filter (fun p => rls_using profiles_policies SELECT d caller p
                   && existsb (fun i => i =? p_id p) ids)
         (profiles d).


(** The condition of the two student policies on a row: the caller owns
    it and it is Pending. *)
Definition own_pending (caller : option uuid) (r : complaint) : bool :=
  uid_is caller (c_user_id r) && complaint_status_eqb (c_status r) Pending.

(** The columns of a complaint that the update of the dashboard never
    names. *)
Definition fixed_columns (r : complaint)
  : uuid * uuid * string * complaint_category * string * option string * Z :=
  (c_id r, c_user_id r, c_title r, c_category r, c_description r, c_file_url r,
   c_created_at r).

(** *** Databases filled by sign-ups only *)

Definition empty_db : db := mkDb [] [] [] [].

(** A sequence of sign-ups; one that fails leaves the database as it was. *)
Definition sign_ups (news : list auth_user) (d : db) : db :=
  fold_left (fun acc NEW => match insert_auth_user NEW acc with
                            | Some acc' => acc'
                            | None => acc
                            end) news d.

Definition role_for (u : auth_user) : app_role :=
  if is_bootstrap (au_email u) then admin else student.

(** The shape the trigger gives the three identity tables: no two
    identities share an id, and [profiles] and [user_roles] hold one row per
    identity, in the order of [auth.users], with the identity's email and
    the role its email earns. *)
Definition trigger_shaped (d : db) : Prop :=
  NoDup (map au_id (users d))
  /\ map p_id (profiles d) = map au_id (users d)
  /\ map (fun p => Some (p_email p)) (profiles d) = map au_email (users d)
  /\ user_roles d = map (fun u => mkRole (au_id u) (role_for u)) (users d).

(** *** Policies on [storage.objects] *)

Record storage_object := mkObject {
  bucket_id : string;
  name : string
}.

(** The segments of a path between its slashes. *)
Fixpoint segments (acc : string) (s : string) : list string :=
  match s with
  | EmptyString => [acc]
  | String c rest =>
      if Ascii.eqb c "/"%char then acc :: segments "" rest
      else segments (acc ++ String c "")%string rest
  end.

(** Modelled from the storage service: [storage.foldername(name)] is the
    array of the path's segments without the last one, the file name. *)
Definition foldername (name : string) : list string :=
  removelast (segments "" name).

(** [(storage.foldername(name))[1] = auth.uid()::text]; a missing element
    is NULL and the comparison does not hold. *)
Definition in_own_folder (uid : option uuid) (o : storage_object) : bool :=
  match foldername (name o) with
  | folder :: _ => uid_is uid folder
  | [] => false
  end.

(** [TO authenticated] *)
Definition authenticated (uid : option uuid) : bool :=
  match uid with Some _ => true | None => false end.

Definition storage_policies : list (policy storage_object) :=
  [ mkPolicy "Students can upload complaint files" INSERT
      None
      (Some (fun _ uid o => authenticated uid
                            && ((bucket_id o =? "complaint-files")
                                && in_own_folder uid o)));
    mkPolicy "Students can view their own complaint files" SELECT
      (Some (fun _ uid o => authenticated uid
                            && ((bucket_id o =? "complaint-files")
                                && in_own_folder uid o))) None;
    mkPolicy "Students can delete their own complaint files" DELETE
      (Some (fun _ uid o => authenticated uid
                            && ((bucket_id o =? "complaint-files")
                                && in_own_folder uid o))) None;
    mkPolicy "Admins can view all complaint files" SELECT
      (Some (fun d uid o => authenticated uid
                            && ((bucket_id o =? "complaint-files")
                                && has_role d uid admin))) None ].

Definition has_slash (s : string) : bool :=
  existsb (fun c => Ascii.eqb c "/"%char) (list_ascii_of_string s).

End Schema.

(** ** AuthContext.tsx *)

Module AuthContext.

Record User := mkUser {
  id : uuid;
  email : option string
}.

Record state := mkState {
  user : option User;
  isAdmin : bool;
  loading : bool
}.

Definition setIsAdmin (b : bool) : Eff state unit :=
  modify (fun s => mkState (user s) b (loading s)).

Definition show_email (userEmail : option string) : string :=
  match userEmail with Some e => e | None => "undefined" end.

(** [checkAdminRole(userId, userEmail)]; [query] is what the [user_roles]
    request resolves to, should it be issued. *)
Definition checkAdminRole (userId : uuid) (userEmail : option string)
           (query : response Schema.user_role) : Eff state unit :=
  try_catch
    (if is_bootstrap userEmail then
       (setIsAdmin true ;;
        emit (ConsoleLog ["Admin role detected by email:"; show_email userEmail]))
     else
       (emit (Net (SelectAdminRole userId)) ;;
        match query with
        | Rejected reason => throw (BackendError reason)
        | Returned data error =>
            (match error with
             | Some e => emit (ConsoleError ["Error checking admin role from database:"; e])
             | None => ret tt
             end ;;
             match error, data with
             | None, Some _ =>
                 setIsAdmin true ;;
                 emit (ConsoleLog ["Admin role found in database for user:"; userId])
             | _, _ =>
                 setIsAdmin false ;;
                 emit (ConsoleLog ["No admin role found for user:"; userId;
                                   "email:"; show_email userEmail])
             end)
        end))%eff
    (fun _ =>
       (emit (ConsoleError ["Error checking admin role:"]) ;;
        setIsAdmin false)%eff).

(** The backend's answer to the request of [checkAdminRole]:
    [from("user_roles").select("role").eq("user_id", userId)
     .eq("role", "admin").maybeSingle()], under the table's policies. *)
Definition select_admin_role (d : Schema.db) (caller : option uuid) (userId : uuid)
  : response Schema.user_role :=
  maybeSingle
    (filter (fun r => Schema.rls_using Schema.user_roles_policies Schema.SELECT d caller r
                      && (Schema.ur_user_id r =? userId)
                      && app_role_eqb (Schema.ur_role r) admin)
            (Schema.user_roles d)).

Definition setUser (u : option User) : Eff state unit :=
  modify (fun s => mkState u (isAdmin s) (loading s)).

Definition setLoading (b : bool) : Eff state unit :=
  modify (fun s => mkState (user s) (isAdmin s) b).

(** The callback given to [onAuthStateChange]; [session_user] is
    [session?.user ?? null].  The session itself is stored beside the user
    and read nowhere in the provider. *)
Definition onAuthStateChange (session_user : option User)
           (query : response Schema.user_role) : Eff state unit :=
  (setUser session_user ;;
   match session_user with
   | Some u => checkAdminRole (id u) (email u) query
   | None => setIsAdmin false
   end)%eff.

(** The continuation of [getSession()] run when the provider mounts. *)
Definition onGetSession (session_user : option User)
           (query : response Schema.user_role) : Eff state unit :=
  (setUser session_user ;;
   match session_user with
   | Some u => checkAdminRole (id u) (email u) query
   | None => ret tt
   end ;;
   setLoading false)%eff.

(** The provider as it mounts. *)
Definition initial : state := mkState None false true.

(** The effect shared by the landing page and the sign-in page: where to
    navigate, if anywhere, for the current context value. *)
Definition redirect (s : state) : option string :=
  if negb (loading s) && (match user s with Some _ => true | None => false end)
  then Some (if isAdmin s then "/admin/dashboard" else "/student/dashboard")
  else None.

End AuthContext.

(** ** The student dashboard *)

Module StudentDashboard.

(** *** [complaintSchema] *)

(** White space removed by [trim].  A string is a sequence of code units
    below 256: the space, the controls 9 to 13 and the no-break space. *)
Definition is_space (c : ascii) : bool :=
  let n := nat_of_ascii c in
  (n =? 32)%nat || ((9 <=? n)%nat && (n <=? 13)%nat) || (n =? 160)%nat.

Fixpoint trim_start (l : list ascii) : list ascii :=
  match l with
  | [] => []
  | c :: rest => if is_space c then trim_start rest else l
  end.

Definition trim (s : string) : string :=
  string_of_list_ascii
    (rev (trim_start (rev (trim_start (list_ascii_of_string s))))).

(** [z.string().trim().min(lo, msg).max(hi)] at key [path]: the trimmed value
    and the issues found. *)
Definition check_string (path : string) (lo : nat) (msg : string) (hi : nat)
           (s : string) : string * list zod_issue :=
  let t := trim s in
  (t,
   (if (String.length t <? lo)%nat then [mkIssue path too_small (Some msg)] else [])
   ++ (if (hi <? String.length t)%nat then [mkIssue path too_big None] else [])).

(** [z.enum([...])] *)
Definition parse_category (s : string) : option complaint_category :=
  find (fun c => category_text c =? s) all_categories.

Record validated := mkValidated {
  v_title : string;
  v_category : complaint_category;
  v_description : string
}.

(** [complaintSchema.parse]: the keys are checked in the order of the
    schema and all issues are collected; any issue makes [parse] throw. *)
Definition complaintSchema_parse (title category description : string)
  : validated + list zod_issue :=
  let '(t, it) := check_string "title" 5 "Title must be at least 5 characters" 200 title in
  let ic := match parse_category category with
            | Some _ => []
            | None => [mkIssue "category" invalid_enum_value None]
            end in
  let '(d, id) := check_string "description" 20
                    "Description must be at least 20 characters" 2000 description in
  match parse_category category, it ++ ic ++ id with
  | Some c, [] => inl (mkValidated t c d)
  | _, issues => inr issues
  end.

Definition issue_text (i : zod_issue) : toast_text :=
  match issue_message i with
  | Some m => Text m
  | None => LibraryDefault (issue_path i) (issue_code i)
  end.

(** *** Component state *)

Record state := mkState {
  user : option AuthContext.User;
  complaints : list Schema.complaint;
  loading : bool;
  submitting : bool;
  open : bool;
  title : string;
  category : string;
  description : string;
  file : option File;
  uploading : bool
}.

Definition setComplaints v : Eff state unit :=
  modify (fun s => mkState (user s) v (loading s) (submitting s) (open s) (title s)
                           (category s) (description s) (file s) (uploading s)).
Definition setLoading v : Eff state unit :=
  modify (fun s => mkState (user s) (complaints s) v (submitting s) (open s) (title s)
                           (category s) (description s) (file s) (uploading s)).
Definition setSubmitting v : Eff state unit :=
  modify (fun s => mkState (user s) (complaints s) (loading s) v (open s) (title s)
                           (category s) (description s) (file s) (uploading s)).
Definition setOpen v : Eff state unit :=
  modify (fun s => mkState (user s) (complaints s) (loading s) (submitting s) v (title s)
                           (category s) (description s) (file s) (uploading s)).
Definition setTitle v : Eff state unit :=
  modify (fun s => mkState (user s) (complaints s) (loading s) (submitting s) (open s) v
                           (category s) (description s) (file s) (uploading s)).
Definition setCategory v : Eff state unit :=
  modify (fun s => mkState (user s) (complaints s) (loading s) (submitting s) (open s)
                           (title s) v (description s) (file s) (uploading s)).
Definition setDescription v : Eff state unit :=
  modify (fun s => mkState (user s) (complaints s) (loading s) (submitting s) (open s)
                           (title s) (category s) v (file s) (uploading s)).
Definition setFile v : Eff state unit :=
  modify (fun s => mkState (user s) (complaints s) (loading s) (submitting s) (open s)
                           (title s) (category s) (description s) v (uploading s)).
Definition setUploading v : Eff state unit :=
  modify (fun s => mkState (user s) (complaints s) (loading s) (submitting s) (open s)
                           (title s) (category s) (description s) (file s) v).

(** What the backend answers to the requests of one submission. *)
Record backend := mkBackend {
  upload_response : response unit;
  public_url : string -> string;
  insert_response : response unit;
  list_response : response (list Schema.complaint)
}.

Definition fetchComplaints (b : backend) : Eff state unit :=
  (s <- get ;;
   match user s with
   | None => ret tt
   | Some u =>
       emit (Net (SelectOwnComplaints (AuthContext.id u))) ;;
       match list_response b with
       | Rejected reason => throw (BackendError reason)
       | Returned _ (Some _) => emit (ToastError (Text "Failed to load complaints"))
       | Returned data None =>
           setComplaints (match data with Some l => l | None => [] end) ;;
           setLoading false
       end
   end)%eff.

Definition max_file_bytes : Z := 10 * 1024 * 1024.

(** [handleFileChange]; the argument is [e.target.files?.[0]]. *)
Definition handleFileChange (selectedFile : option File) : Eff state unit :=
  match selectedFile with
  | Some f =>
      if (file_size f >? max_file_bytes)%Z
      then emit (ToastError (Text "File size must be less than 10MB"))
      else setFile (Some f)
  | None => ret tt
  end.

(** [name.split('.').pop()]: what follows the last dot, or the whole name. *)
Fixpoint last_segment (acc : string) (s : string) : string :=
  match s with
  | EmptyString => acc
  | String c rest =>
      if Ascii.eqb c "."%char then last_segment "" rest
      else last_segment (acc ++ String c "")%string rest
  end.

Definition show_now (now : N) : string := NilZero.string_of_uint (N.to_uint now).

(** [uploadFile]; [now] is [Date.now()]. *)
Definition uploadFile (now : N) (b : backend) : Eff state (option string) :=
  (s <- get ;;
   match file s, user s with
   | Some f, Some u =>
       setUploading true ;;
       finally
         (try_catch
            (let fileExt := last_segment "" (file_name f) in
             let fileName :=
               (AuthContext.id u ++ "/" ++ show_now now ++ "." ++ fileExt)%string in
             emit (Net (StorageUpload fileName f)) ;;
             match upload_response b with
             | Rejected reason => throw (BackendError reason)
             | Returned _ (Some uploadError) => throw (BackendError uploadError)
             | Returned _ None => ret (Some (public_url b fileName))
             end)
            (fun error =>
               emit (ConsoleError ["File upload error:"; error_message error]) ;;
               emit (ToastError (Text "Failed to upload file")) ;;
               ret None))
         (setUploading false)
   | _, _ => ret None
   end)%eff.

(** The part of [handleSubmit] after the upload. *)
Definition insertComplaint (b : backend) (s : state) (v : validated)
           (fileUrl : option string) : Eff state unit :=
  match user s with
  | None => throw (TypeError "Cannot read properties of null (reading 'id')")
  | Some u =>
      (emit (Net (InsertComplaint
                    (mkInsert (AuthContext.id u) (v_title v) (v_category v)
                              (v_description v) fileUrl))) ;;
       match insert_response b with
       | Rejected reason => throw (BackendError reason)
       | Returned _ (Some error) => throw (BackendError error)
       | Returned _ None =>
           emit (ToastSuccess "Complaint submitted successfully!") ;;
           setTitle "" ;;
           setCategory "" ;;
           setDescription "" ;;
           setFile None ;;
           setOpen false ;;
           detached (fetchComplaints b)
       end)%eff
  end.

Definition handleSubmit (now : N) (b : backend) : Eff state unit :=
  (setSubmitting true ;;
   finally
     (try_catch
        (s <- get ;;
         match complaintSchema_parse (title s) (category s) (description s) with
         | inr issues => throw (ZodError issues)
         | inl v =>
             match file s with
             | Some _ =>
                 fileUrl <- uploadFile now b ;;
                 match fileUrl with
                 | Some url =>
                     if truthy url then insertComplaint b s v (Some url)
                     else setSubmitting false
                 | None => setSubmitting false
                 end
             | None => insertComplaint b s v None
             end
         end)
        (fun error =>
           match error with
           | ZodError (i :: _) => emit (ToastError (issue_text i))
           | ZodError [] =>
               throw (TypeError "Cannot read properties of undefined (reading 'message')")
           | _ => emit (ToastError (Text "Failed to submit complaint"))
           end))
     (setSubmitting false))%eff.

(** *** What the student can do with the form *)

Inductive ui_event :=
| TypeTitle (v : string)
| ChooseCategory (v : string)
| TypeDescription (v : string)
| ChooseFile (selectedFile : option File)
| SetDialog (v : bool)
| Submit (now : N) (b : backend).

Definition handle (e : ui_event) : Eff state unit :=
  match e with
  | TypeTitle v => setTitle v
  | ChooseCategory v => setCategory v
  | TypeDescription v => setDescription v
  | ChooseFile f => handleFileChange f
  | SetDialog v => setOpen v
  | Submit now b => detached (handleSubmit now b)
  end.

Fixpoint run (es : list ui_event) : Eff state unit :=
  match es with
  | [] => ret tt
  | e :: rest => (handle e ;; run rest)%eff
  end.

(** The component as it is mounted for a signed-in student. *)
Definition initial (u : AuthContext.User) : state :=
  mkState (Some u) [] true false false "" "" "" None false.

(** The upload request did not succeed: the answer carries an error, or the
    request was rejected. *)
Definition upload_fails (b : backend) : Prop :=
  match upload_response b with
  | Returned _ None => False
  | Returned _ (Some _) => True
  | Rejected _ => True
  end.

(** The file held by the form, if any, is within the size limit. *)
Definition file_within_limit (s : state) : Prop :=
  match file s with
  | Some g => (file_size g <= max_file_bytes)%Z
  | None => True
  end.

(** A computation keeps to the form's file when run at [s]: afterwards the
    form holds the same file or none, and the only file it uploads is the
    one the form held. *)
Definition keeps_file {A} (m : Eff state A) (s : state) : Prop :=
  (file (state_of (m s)) = file s \/ file (state_of (m s)) = None)
  /\ (forall path g, In (Net (StorageUpload path g)) (trace_of (m s)) ->
                     file s = Some g).

Definition upload_within_limit (e : effect) : bool :=
  match e with
  | Net (StorageUpload _ g) => (file_size g <=? max_file_bytes)%Z
  | _ => true
  end.

(** The dialog opened and the form filled in with valid fields. *)
Definition valid_form : list ui_event :=
  [ SetDialog true;
    TypeTitle "Wifi down";
    ChooseCategory "Technical";
    TypeDescription "The lab wifi has been down since Monday morning" ].

(** A backend on which every request succeeds. *)
Definition accepting_backend : backend :=
  mkBackend
    (Returned None None)
    (fun path => ("https://files.example/complaint-files/" ++ path)%string)
    (Returned None None)
    (Returned (Some []) None).

(** *** Pieces of the rendering *)

(** The path [uploadFile] stores a file under. *)
Definition upload_path (u : AuthContext.User) (now : N) (f : File) : string :=
  (AuthContext.id u ++ "/" ++ show_now now ++ "." ++ last_segment "" (file_name f))%string.

(** The badge beside the file input:
    [name.length > 20 ? name.substring(0, 20) + '...' : name]. *)
Definition file_badge (f : File) : string :=
  if (20 <? String.length (file_name f))%nat
  then (String.substring 0 20 (file_name f) ++ "...")%string
  else file_name f.

Record stats := mkStats {
  total : nat;
  pending : nat;
  underReview : nat;
  resolved : nat
}.

(** The counters above the list; the dashboard compares the status text. *)
Definition count_status (text : string) (cs : list Schema.complaint) : nat :=
  List.length (filter (fun c => status_text (Schema.c_status c) =? text) cs).

Definition stats_of (cs : list Schema.complaint) : stats :=
  mkStats (List.length cs) (count_status "Pending" cs)
          (count_status "Under Review" cs) (count_status "Resolved" cs).

End StudentDashboard.

(** ** The admin dashboard *)

Module AdminDashboard.

(** A complaint row with the [profiles] property added by the merge. *)
Record Complaint := mkComplaint {
  row : Schema.complaint;
  profiles : option Schema.profile
}.

Record state := mkState {
  complaints : list Complaint;
  filteredComplaints : list Complaint;
  loading : bool;
  selectedComplaint : option Complaint;
  statusFilter : string;
  categoryFilter : string;
  updating : bool;
  newStatus : complaint_status;
  adminRemarks : string
}.

Definition setComplaints v : Eff state unit :=
  modify (fun s => mkState v (filteredComplaints s) (loading s) (selectedComplaint s)
                           (statusFilter s) (categoryFilter s) (updating s)
                           (newStatus s) (adminRemarks s)).
Definition setFilteredComplaints v : Eff state unit :=
  modify (fun s => mkState (complaints s) v (loading s) (selectedComplaint s)
                           (statusFilter s) (categoryFilter s) (updating s)
                           (newStatus s) (adminRemarks s)).
Definition setLoading v : Eff state unit :=
  modify (fun s => mkState (complaints s) (filteredComplaints s) v (selectedComplaint s)
                           (statusFilter s) (categoryFilter s) (updating s)
                           (newStatus s) (adminRemarks s)).
Definition setSelectedComplaint v : Eff state unit :=
  modify (fun s => mkState (complaints s) (filteredComplaints s) (loading s) v
                           (statusFilter s) (categoryFilter s) (updating s)
                           (newStatus s) (adminRemarks s)).
Definition setUpdating v : Eff state unit :=
  modify (fun s => mkState (complaints s) (filteredComplaints s) (loading s)
                           (selectedComplaint s) (statusFilter s) (categoryFilter s) v
                           (newStatus s) (adminRemarks s)).
Definition setNewStatus v : Eff state unit :=
  modify (fun s => mkState (complaints s) (filteredComplaints s) (loading s)
                           (selectedComplaint s) (statusFilter s) (categoryFilter s)
                           (updating s) v (adminRemarks s)).
Definition setAdminRemarks v : Eff state unit :=
  modify (fun s => mkState (complaints s) (filteredComplaints s) (loading s)
                           (selectedComplaint s) (statusFilter s) (categoryFilter s)
                           (updating s) (newStatus s) v).

(** [[...new Set(xs)]]: the distinct values, in order of first occurrence. *)
Fixpoint distinct (seen : list uuid) (xs : list uuid) : list uuid :=
  match xs with
  | [] => []
  | x :: rest =>
      if existsb (fun y => y =? x) seen then distinct seen rest
      else x :: distinct (x :: seen) rest
  end.

(** [profilesData?.find(p => p.id === complaint.user_id) || null] *)
Definition find_profile (profilesData : option (list Schema.profile)) (user_id : uuid)
  : option Schema.profile :=
  match profilesData with
  | Some ps => find (fun p => Schema.p_id p =? user_id) ps
  | None => None
  end.

Definition merge (complaintsData : list Schema.complaint)
           (profilesData : option (list Schema.profile)) : list Complaint :=
  map (fun complaint => mkComplaint complaint
                          (find_profile profilesData (Schema.c_user_id complaint)))
      complaintsData.

(** What the backend answers to the two reads of the listing. *)
Record listing := mkListing {
  complaints_response : response (list Schema.complaint);
  profiles_response : list uuid -> response (list Schema.profile)
}.

Definition fetchComplaints (b : listing) : Eff state unit :=
  (emit (Net SelectAllComplaints) ;;
   match complaints_response b with
   | Rejected reason => throw (BackendError reason)
   | Returned _ (Some _) =>
       emit (ToastError (Text "Failed to load complaints")) ;;
       setLoading false
   | Returned None None =>
       throw (TypeError "Cannot read properties of null (reading 'map')")
   | Returned (Some complaintsData) None =>
       let userIds := distinct [] (map Schema.c_user_id complaintsData) in
       emit (Net (SelectProfiles userIds)) ;;
       match profiles_response b userIds with
       | Rejected reason => throw (BackendError reason)
       | Returned _ (Some _) =>
           emit (ToastError (Text "Failed to load user profiles")) ;;
           setLoading false
       | Returned profilesData None =>
           setComplaints (merge complaintsData profilesData) ;;
           setLoading false
       end
   end)%eff.

(** The submitter shown on a card:
    [By {profiles?.full_name || "Unknown"} ({profiles?.email || "N/A"})]. *)
Definition shown_name (c : Complaint) : string :=
  or_else (option_map Schema.p_full_name (profiles c)) "Unknown".

Definition shown_email (c : Complaint) : string :=
  or_else (option_map Schema.p_email (profiles c)) "N/A".

(** The list computed by [filterComplaints]. *)
Definition filtered (complaints : list Complaint) (statusFilter categoryFilter : string)
  : list Complaint :=
  let filtered := complaints in
  let filtered :=
    if negb (statusFilter =? "all")
    then filter (fun c => status_text (Schema.c_status (row c)) =? statusFilter) filtered
    else filtered in
  let filtered :=
    if negb (categoryFilter =? "all")
    then filter (fun c => category_text (Schema.c_category (row c)) =? categoryFilter)
                filtered
    else filtered in
  filtered.

Definition filterComplaints : Eff state unit :=
  (s <- get ;;
   setFilteredComplaints (filtered (complaints s) (statusFilter s) (categoryFilter s)))%eff.

(** The two predicates of the filter, each with its wildcard. *)
Definition status_matches (statusFilter : string) (c : Complaint) : bool :=
  (statusFilter =? "all") || (status_text (Schema.c_status (row c)) =? statusFilter).

Definition category_matches (categoryFilter : string) (c : Complaint) : bool :=
  (categoryFilter =? "all")
  || (category_text (Schema.c_category (row c)) =? categoryFilter).

(** What the backend answers to an update and to the reload after it. *)
Record backend := mkBackend {
  update_response : response unit;
  reload : listing
}.

Definition handleUpdateComplaint (b : backend) : Eff state unit :=
  (s <- get ;;
   match selectedComplaint s with
   | None => ret tt
   | Some selected =>
       setUpdating true ;;
       emit (Net (UpdateComplaint (Schema.c_id (row selected))
                    (mkUpdate (newStatus s) (or_null (adminRemarks s))))) ;;
       match update_response b with
       | Rejected reason => throw (BackendError reason)
       | Returned _ (Some _) => emit (ToastError (Text "Failed to update complaint"))
       | Returned _ None =>
           emit (ToastSuccess "Complaint updated successfully!") ;;
           setSelectedComplaint None ;;
           setNewStatus Pending ;;
           setAdminRemarks "" ;;
           detached (fetchComplaints (reload b))
       end ;;
       setUpdating false
   end)%eff.

Definition openComplaintDialog (complaint : Complaint) : Eff state unit :=
  (setSelectedComplaint (Some complaint) ;;
   setNewStatus (Schema.c_status (row complaint)) ;;
   setAdminRemarks (or_else (Schema.c_admin_remarks (row complaint)) ""))%eff.

(** The update sent for the dialog's current values. *)
Definition update_sent (s : state) : option (uuid * complaint_update) :=
  match selectedComplaint s with
  | Some selected =>
      Some (Schema.c_id (row selected), mkUpdate (newStatus s) (or_null (adminRemarks s)))
  | None => None
  end.

(** The two reads answered by a database, for the admin [caller]. *)
Definition listing_of (d : Schema.db) (caller : option uuid) : listing :=
  mkListing (Returned (Some (Schema.select_all_complaints d caller)) None)
            (fun ids => Returned (Some (Schema.select_profiles d caller ids)) None).

(** The counters of the dashboard. *)
Definition stats_of (cs : list Complaint) : StudentDashboard.stats :=
  StudentDashboard.mkStats
    (List.length cs)
    (List.length (filter (fun c => status_text (Schema.c_status (row c)) =? "Pending") cs))
    (List.length (filter (fun c => status_text (Schema.c_status (row c)) =? "Under Review") cs))
    (List.length (filter (fun c => status_text (Schema.c_status (row c)) =? "Resolved") cs)).

(** [admin_remarks] as a round through the dialog leaves it:
    [(admin_remarks || "") || null]. *)
Definition through_dialog (remarks : option string) : option string :=
  or_null (or_else remarks "").

End AdminDashboard.

(** ** The create-admin edge function *)

Module CreateAdmin.

Record request := mkRequest {
  method : string
}.

Inductive body :=
| Plain (text : string)
| Message (message : string)
| Created (message : string) (id : uuid) (email : option string)
| Failure (error : string).

Record http_response := mkResponse {
  response_body : body;
  status : nat;
  json : bool
}.

(** What the auth admin API answers. *)
Record backend := mkBackend {
  listUsers : response (list AuthContext.User);
  createUser : response AuthContext.User
}.

Definition admin_params : create_user_params :=
  mkCreateUser "admin@brototype.com" "password123" true "Admin".

(** The handler given to [Deno.serve]. *)
Definition serve (b : backend) (req : request) : Eff unit http_response :=
  if method req =? "OPTIONS" then ret (mkResponse (Plain "ok") 200 false)
  else
    try_catch
      (emit (Net ListUsers) ;;
       match listUsers b with
       | Rejected reason => throw (BackendError reason)
       | Returned existingUser _ =>
           let adminExists :=
             match existingUser with
             | Some us => existsb (fun u => is_bootstrap (AuthContext.email u)) us
             | None => false
             end in
           if adminExists
           then ret (mkResponse (Message "Admin account already exists") 200 true)
           else
             emit (Net (CreateUser admin_params)) ;;
             match createUser b with
             | Rejected reason => throw (BackendError reason)
             | Returned _ (Some createError) => throw (BackendError createError)
             | Returned None None =>
                 throw (TypeError "Cannot read properties of null (reading 'user')")
             | Returned (Some newUser) None =>
                 ret (mkResponse
                        (Created "Admin account created successfully"
                                 (AuthContext.id newUser) (AuthContext.email newUser))
                        200 true)
             end
       end)%eff
      (fun error => ret (mkResponse (Failure (error_message error)) 400 true)).

(** Modelled from the auth service: the [auth.users] row that
    [auth.admin.createUser] inserts for its argument, [id] being the
    generated key; [user_metadata] becomes [raw_user_meta_data]. *)
Definition created_row (id : uuid) (p : create_user_params) : Schema.auth_user :=
  Schema.mkUser id (Some (cu_email p)) (Some (cu_full_name p)).

End CreateAdmin.

(** ** The sign-in page *)

Module AuthPage.

Record state := mkState {
  isLogin : bool;
  email : string;
  password : string;
  fullName : string;
  confirmPassword : string;
  isSubmitting : bool
}.

Definition setIsSubmitting (v : bool) : Eff state unit :=
  modify (fun s => mkState (isLogin s) (email s) (password s) (fullName s)
                           (confirmPassword s) v).

(** [searchParams.get("type") || "student"] and the flag derived from it,
    which selects labels only. *)
Definition userType (param : option string) : string := or_else param "student".

Definition isAdmin (param : option string) : bool := userType param =? "admin".

(** [message.includes(needle)] *)
Definition includes (message needle : string) : bool :=
  match String.index 0 needle message with
  | Some _ => true
  | None => false
  end.

Record login := mkLogin {
  l_email : string;
  l_password : string
}.

Record signup := mkSignup {
  s_email : string;
  s_password : string;
  s_fullName : string
}.

Section Handlers.

(** The validation library's test for an email address. *)
Variable is_email : string -> bool.

(** The context's [signIn] and [signUp], as seen from the page: whatever
    they do, they resolve to [{ error }], here the error's message if any. *)
Variable signIn : string -> string -> Eff state (option string).
Variable signUp : string -> string -> string -> Eff state (option string).

(** Issues of [z.string().trim().email({message}).max(255)] at [email].
    The email issue and the refinement's issue below carry their own
    message, which is all the page reads of them; [zod_code] has no code of
    its own for them and the code written here is never looked at. *)
Definition email_issues (e : string) : list zod_issue :=
  (if is_email e then [] else [mkIssue "email" invalid_enum_value (Some "Invalid email address")])
  ++ (if (255 <? String.length e)%nat then [mkIssue "email" too_big None] else []).

(** Issues of [z.string().min(6, {message}).max(100)] at [password]. *)
Definition password_issues (p : string) : list zod_issue :=
  (if (String.length p <? 6)%nat
   then [mkIssue "password" too_small (Some "Password must be at least 6 characters")]
   else [])
  ++ (if (100 <? String.length p)%nat then [mkIssue "password" too_big None] else []).

(** Issues of [z.string().trim().min(2, {message}).max(100)] at [fullName]. *)
Definition fullName_issues (n : string) : list zod_issue :=
  (if (String.length n <? 2)%nat
   then [mkIssue "fullName" too_small (Some "Name must be at least 2 characters")]
   else [])
  ++ (if (100 <? String.length n)%nat then [mkIssue "fullName" too_big None] else []).

(** [loginSchema.parse] *)
Definition loginSchema_parse (email password : string) : login + list zod_issue :=
  let e := StudentDashboard.trim email in
  match email_issues e ++ password_issues password with
  | [] => inl (mkLogin e password)
  | issues => inr issues
  end.

(** [signupSchema.parse]: the fields of [loginSchema], then [fullName]; the
    refinement runs on the parsed fields and its issue comes last. *)
Definition signupSchema_parse (email password fullName confirmPassword : string)
  : signup + list zod_issue :=
  let e := StudentDashboard.trim email in
  let n := StudentDashboard.trim fullName in
  match email_issues e ++ password_issues password ++ fullName_issues n
        ++ (if password =? confirmPassword then []
            else [mkIssue "confirmPassword" invalid_enum_value
                          (Some "Passwords don't match")]) with
  | [] => inl (mkSignup e password n)
  | issues => inr issues
  end.

Definition handleSubmit : Eff state unit :=
  (setIsSubmitting true ;;
   finally
     (try_catch
        (s <- get ;;
         if isLogin s then
           match loginSchema_parse (email s) (password s) with
           | inr issues => throw (ZodError issues)
           | inl validated =>
               error <- signIn (l_email validated) (l_password validated) ;;
               match error with
               | Some message =>
                   if includes message "Invalid login credentials"
                   then emit (ToastError (Text "Invalid email or password"))
                   else emit (ToastError (Text message))
               | None => emit (ToastSuccess "Welcome back!")
               end
           end
         else
           match signupSchema_parse (email s) (password s) (fullName s)
                                    (confirmPassword s) with
           | inr issues => throw (ZodError issues)
           | inl validated =>
               error <- signUp (s_email validated) (s_password validated)
                               (s_fullName validated) ;;
               match error with
               | Some message =>
                   if includes message "already registered"
                   then emit (ToastError (Text "This email is already registered"))
                   else emit (ToastError (Text message))
               | None => emit (ToastSuccess "Account created successfully!")
               end
           end)
        (fun error =>
           match error with
           | ZodError (i :: _) => emit (ToastError (StudentDashboard.issue_text i))
           | ZodError [] =>
               throw (TypeError "Cannot read properties of undefined (reading 'message')")
           | _ => emit (ToastError (Text "An unexpected error occurred"))
           end))
     (setIsSubmitting false))%eff.

End Handlers.

End AuthPage.

(** * Properties *)

(** ** Helper lemmas *)

Lemma app_role_eqb_eq (a b : app_role) : app_role_eqb a b = true <-> a = b.
Proof. destruct a, b; simpl; split; congruence. Qed.

Lemma complaint_status_eqb_eq (a b : complaint_status) :
  complaint_status_eqb a b = true <-> a = b.
Proof. destruct a, b; simpl; split; congruence. Qed.

Lemma existsb_pointwise {A} (f g : A -> bool) (l : list A) :
  (forall x, f x = g x) -> existsb f l = existsb g l.
Proof.
  intros H. induction l as [|a l IH]; simpl; [reflexivity|].
  now rewrite H, IH.
Qed.

(** Under a uniqueness constraint, a filter that only one value can pass
    keeps at most that value. *)
Lemma filter_unique {A} (p : A -> bool) (x : A) (l : list A) :
  (forall y, p y = true -> y = x) ->
  NoDup l ->
  filter p l = (if existsb p l then [x] else []).
Proof.
  intros Hp Hnd. induction Hnd as [|a l Hnotin Hnd IH]; simpl; [reflexivity|].
  destruct (p a) eqn:Ha; simpl.
  - apply Hp in Ha. subst a. f_equal.
    rewrite IH. destruct (existsb p l) eqn:Hex; [|reflexivity].
    apply existsb_exists in Hex. destruct Hex as [y [Hy Hpy]].
    apply Hp in Hpy. subst y. contradiction.
  - exact IH.
Qed.

(** With [UNIQUE(user_id, role)] in force and the caller asking about
    itself, the admin-role query answers exactly [has_role]. *)
Lemma select_admin_role_has_role (d : Schema.db) (userId : uuid) :
  NoDup (Schema.user_roles d) ->
  AuthContext.select_admin_role d (Some userId) userId
  = if Schema.has_role d (Some userId) admin
    then Returned (Some (Schema.mkRole userId admin)) None
    else Returned None None.
Proof.
  intros Hnd. unfold AuthContext.select_admin_role, Schema.has_role.
  rewrite (filter_unique _ (Schema.mkRole userId admin)); [| |exact Hnd].
  - match goal with
    | |- context [existsb ?f ?l] =>
        replace (existsb f l)
          with (existsb (fun r => Schema.uid_is (Some userId) (Schema.ur_user_id r)
                                  && app_role_eqb (Schema.ur_role r) admin) l)
    end.
    + destruct (existsb _ _); reflexivity.
    + apply existsb_pointwise. intros r.
      unfold Schema.rls_using, Schema.user_roles_policies, Schema.using_holds. simpl.
      rewrite (String.eqb_sym userId).
      destruct (Schema.ur_user_id r =? userId); reflexivity.
  - intros [u r]. simpl. intros H.
    apply andb_true_iff in H. destruct H as [H Hr].
    apply andb_true_iff in H. destruct H as [_ Hu].
    apply String.eqb_eq in Hu. apply app_role_eqb_eq in Hr. congruence.
Qed.

(** ** Role resolution *)

(** C1: when the email is the reserved bootstrap address, [checkAdminRole]
    sets [isAdmin] to true whatever the [user_roles] request would answer
    (so whatever the table holds), and it does so without issuing any
    backend request: the email test comes first and returns. *)
Theorem checkAdminRole_bootstrap_email :
  forall (userId : uuid) (query : response Schema.user_role) (st : AuthContext.state),
    let r := AuthContext.checkAdminRole userId (Some bootstrap_email) query st in
    AuthContext.isAdmin (state_of r) = true
    /\ filter is_net (trace_of r) = []
    /\ value_of r = Normal tt
    /\ (forall (d : Schema.db) (caller : option uuid),
          AuthContext.isAdmin
            (state_of (AuthContext.checkAdminRole userId (Some bootstrap_email)
                         (AuthContext.select_admin_role d caller userId) st)) = true).
Proof.
  intros userId query st. cbv zeta.
  repeat split; reflexivity.
Qed.

(** C2: for an identity whose email is not the bootstrap address,
    [isAdmin] is true exactly when the [user_roles] query finds the
    (identity, admin) row; no row, an error in the answer or a rejected
    request all give [isAdmin = false]; in every case the function returns
    normally and shows no toast (failures only reach the console). *)
Theorem checkAdminRole_role_table :
  forall (userId : uuid) (userEmail : option string) (st : AuthContext.state),
    is_bootstrap userEmail = false ->
    (forall d : Schema.db,
        NoDup (Schema.user_roles d) ->
        AuthContext.isAdmin
          (state_of (AuthContext.checkAdminRole userId userEmail
                       (AuthContext.select_admin_role d (Some userId) userId) st))
        = Schema.has_role d (Some userId) admin)
    /\ (forall data,
          AuthContext.isAdmin
            (state_of (AuthContext.checkAdminRole userId userEmail (Returned data None) st))
          = match data with Some _ => true | None => false end)
    /\ (forall data e,
          AuthContext.isAdmin
            (state_of (AuthContext.checkAdminRole userId userEmail
                         (Returned data (Some e)) st)) = false)
    /\ (forall e,
          AuthContext.isAdmin
            (state_of (AuthContext.checkAdminRole userId userEmail (Rejected e) st))
          = false)
    /\ (forall query,
          let r := AuthContext.checkAdminRole userId userEmail query st in
          filter is_toast (trace_of r) = []
          /\ value_of r = Normal tt
          /\ filter is_net (trace_of r) = [Net (SelectAdminRole userId)]).
Proof.
  intros userId userEmail st Hne.
  unfold AuthContext.checkAdminRole. rewrite Hne.
  refine (conj _ (conj _ (conj _ (conj _ _)))).
  - intros d Hnd. rewrite (select_admin_role_has_role d userId Hnd).
    destruct (Schema.has_role d (Some userId) admin); reflexivity.
  - intros [r|]; reflexivity.
  - intros [r|] e; reflexivity.
  - intros e. reflexivity.
  - intros query. cbv zeta.
    destruct query as [[r|] [e|]|e]; repeat split; reflexivity.
Qed.

Lemma checkAdminRole_role_table_witness :
  AuthContext.isAdmin
    (state_of (AuthContext.checkAdminRole "u1" (Some "student@brototype.com")
                 (AuthContext.select_admin_role
                    (Schema.mkDb [] [] [Schema.mkRole "u1" student; Schema.mkRole "u2" admin] [])
                    (Some "u1") "u1")
                 (AuthContext.mkState None true true)))
  = false.
Proof.
  pose proof (checkAdminRole_role_table "u1" (Some "student@brototype.com")
                (AuthContext.mkState None true true) eq_refl) as H.
  destruct H as [H _].
  rewrite H.
  - reflexivity.
  - simpl. repeat constructor; simpl; intuition discriminate.
Defined.

(** ** Row-level policies on complaints *)

Lemma student_policy_condition (uid : uuid) (r : Schema.complaint) :
  Schema.uid_is (Some uid) (Schema.c_user_id r)
  && complaint_status_eqb (Schema.c_status r) Pending = true
  <-> uid = Schema.c_user_id r /\ Schema.c_status r = Pending.
Proof.
  rewrite andb_true_iff. simpl. rewrite String.eqb_eq, complaint_status_eqb_eq.
  reflexivity.
Qed.

(** C3: for a caller without the admin role, the policies on [complaints]
    let an UPDATE and a DELETE see a row exactly when the caller owns the
    row and its status is Pending; in every other case no policy lets the
    command through. *)
Theorem student_update_delete_iff_owner_pending :
  forall (d : Schema.db) (uid : uuid) (r : Schema.complaint),
    Schema.has_role d (Some uid) admin = false ->
    (Schema.rls_using Schema.complaints_policies Schema.UPDATE d (Some uid) r = true
     <-> uid = Schema.c_user_id r /\ Schema.c_status r = Pending)
    /\ (Schema.rls_using Schema.complaints_policies Schema.DELETE d (Some uid) r = true
        <-> uid = Schema.c_user_id r /\ Schema.c_status r = Pending)
    /\ (~ (uid = Schema.c_user_id r /\ Schema.c_status r = Pending) ->
        Schema.rls_using Schema.complaints_policies Schema.UPDATE d (Some uid) r = false
        /\ Schema.rls_using Schema.complaints_policies Schema.DELETE d (Some uid) r = false).
Proof.
  intros d uid r Hstudent.
  assert (Hu : Schema.rls_using Schema.complaints_policies Schema.UPDATE d (Some uid) r
               = Schema.uid_is (Some uid) (Schema.c_user_id r)
                 && complaint_status_eqb (Schema.c_status r) Pending).
  { unfold Schema.rls_using, Schema.complaints_policies, Schema.using_holds.
    cbn [existsb Schema.pol_for Schema.pol_using Schema.command_eqb andb orb].
    rewrite Hstudent. now rewrite !orb_false_r. }
  assert (Hd : Schema.rls_using Schema.complaints_policies Schema.DELETE d (Some uid) r
               = Schema.uid_is (Some uid) (Schema.c_user_id r)
                 && complaint_status_eqb (Schema.c_status r) Pending).
  { unfold Schema.rls_using, Schema.complaints_policies, Schema.using_holds.
    cbn [existsb Schema.pol_for Schema.pol_using Schema.command_eqb andb orb].
    now rewrite !orb_false_r. }
  rewrite Hu, Hd.
  pose proof (student_policy_condition uid r) as Hc.
  refine (conj Hc (conj Hc _)).
  intros Hnot.
  destruct (Schema.uid_is (Some uid) (Schema.c_user_id r)
            && complaint_status_eqb (Schema.c_status r) Pending) eqn:E.
  - exfalso. apply Hnot, Hc. reflexivity.
  - split; reflexivity.
Qed.

Lemma student_update_delete_iff_owner_pending_witness :
  Schema.rls_using Schema.complaints_policies Schema.UPDATE
    (Schema.mkDb [] [] [Schema.mkRole "s1" student] []) (Some "s1")
    (Schema.mkComplaint "c1" "s1" "Wifi down" Technical "The lab wifi is down" None
                        Resolved None 0 0) = false.
Proof.
  apply (student_update_delete_iff_owner_pending
           (Schema.mkDb [] [] [Schema.mkRole "s1" student] []) "s1"
           (Schema.mkComplaint "c1" "s1" "Wifi down" Technical "The lab wifi is down" None
                               Resolved None 0 0) eq_refl).
  simpl. intros [_ H]. discriminate H.
Defined.

(** ** The identity-creation trigger *)

Lemma existsb_none {A} (f : A -> bool) (l : list A) :
  (forall x, In x l -> f x = false) -> existsb f l = false.
Proof.
  intros H. induction l as [|a l IH]; simpl; [reflexivity|].
  rewrite (H a (or_introl eq_refl)). simpl. apply IH.
  intros x Hx. apply H. now right.
Qed.

Lemma existsb_last {A} (f : A -> bool) (l : list A) (x : A) :
  f x = true -> existsb f (l ++ [x]) = true.
Proof.
  intros H. rewrite existsb_app. simpl. rewrite H. now rewrite orb_true_r.
Qed.

(** C7: inserting a new identity (an id no identity has yet, an email
    present) into a database whose foreign keys hold runs the trigger once
    and succeeds; afterwards [profiles] has exactly one more row, the
    identity's, and [user_roles] has exactly one more row, whose role is
    admin when the email is the bootstrap address and student otherwise. *)
Theorem handle_new_user_one_profile_one_role :
  forall (d : Schema.db) (NEW : Schema.auth_user) (e : string),
    Schema.au_email NEW = Some e ->
    (forall u, In u (Schema.users d) -> Schema.au_id u <> Schema.au_id NEW) ->
    (forall p, In p (Schema.profiles d) ->
               exists u, In u (Schema.users d) /\ Schema.au_id u = Schema.p_id p) ->
    (forall r, In r (Schema.user_roles d) ->
               exists u, In u (Schema.users d) /\ Schema.au_id u = Schema.ur_user_id r) ->
    Schema.insert_auth_user NEW d
    = Some (Schema.mkDb
              (Schema.users d ++ [NEW])
              (Schema.profiles d
               ++ [Schema.mkProfile (Schema.au_id NEW)
                     (Schema.coalesce (Schema.au_meta_full_name NEW) "User") e])
              (Schema.user_roles d
               ++ [Schema.mkRole (Schema.au_id NEW)
                     (if e =? bootstrap_email then admin else student)])
              (Schema.complaints d)).
Proof.
  intros d NEW e He Hfresh Hfkp Hfkr.
  assert (Hu : existsb (fun u => Schema.au_id u =? Schema.au_id NEW) (Schema.users d) = false).
  { apply existsb_none. intros u Hin. apply String.eqb_neq. now apply Hfresh. }
  assert (Hp : existsb (fun p => Schema.p_id p =? Schema.au_id NEW) (Schema.profiles d) = false).
  { apply existsb_none. intros p Hin. apply String.eqb_neq.
    destruct (Hfkp p Hin) as [u [Hinu Hid]]. rewrite <- Hid. now apply Hfresh. }
  assert (Hr : forall role,
             existsb (fun r => (Schema.ur_user_id r =? Schema.au_id NEW)
                               && app_role_eqb (Schema.ur_role r) role)
                     (Schema.user_roles d) = false).
  { intros role. apply existsb_none. intros r Hin.
    destruct (Hfkr r Hin) as [u [Hinu Hid]].
    apply andb_false_iff. left. apply String.eqb_neq. rewrite <- Hid. now apply Hfresh. }
  assert (Hnew : existsb (fun u => Schema.au_id u =? Schema.au_id NEW)
                         (Schema.users d ++ [NEW]) = true).
  { apply existsb_last. apply String.eqb_refl. }
  unfold Schema.insert_auth_user. rewrite Hu.
  unfold Schema.handle_new_user, Schema.insert_profile. rewrite He.
  cbn [Schema.profiles Schema.users]. rewrite Hp, Hnew.
  cbn [negb is_bootstrap].
  destruct (e =? bootstrap_email); unfold Schema.insert_user_role;
    cbn [Schema.profiles Schema.users Schema.user_roles Schema.complaints];
    rewrite Hr, Hnew; reflexivity.
Qed.

Lemma handle_new_user_one_profile_one_role_witness :
  Schema.insert_auth_user (Schema.mkUser "a1" (Some "admin@brototype.com") None)
    (Schema.mkDb [Schema.mkUser "s1" (Some "s1@example.com") (Some "Asha")]
                 [Schema.mkProfile "s1" "Asha" "s1@example.com"]
                 [Schema.mkRole "s1" student] [])
  = Some (Schema.mkDb
            [Schema.mkUser "s1" (Some "s1@example.com") (Some "Asha");
             Schema.mkUser "a1" (Some "admin@brototype.com") None]
            [Schema.mkProfile "s1" "Asha" "s1@example.com";
             Schema.mkProfile "a1" "User" "admin@brototype.com"]
            [Schema.mkRole "s1" student; Schema.mkRole "a1" admin] []).
Proof.
  apply (handle_new_user_one_profile_one_role
           (Schema.mkDb [Schema.mkUser "s1" (Some "s1@example.com") (Some "Asha")]
                        [Schema.mkProfile "s1" "Asha" "s1@example.com"]
                        [Schema.mkRole "s1" student] [])
           (Schema.mkUser "a1" (Some "admin@brototype.com") None)
           "admin@brototype.com" eq_refl).
  - simpl. intros u [Hu|[]]. subst u. simpl. discriminate.
  - simpl. intros p [Hp|[]]. subst p. eexists. split; [left; reflexivity|reflexivity].
  - simpl. intros r [Hr|[]]. subst r. eexists. split; [left; reflexivity|reflexivity].
Defined.

(** ** Admin triage *)

Lemma admin_passes_update_policies (d : Schema.db) (a : uuid) (r : Schema.complaint) :
  Schema.has_role d (Some a) admin = true ->
  Schema.rls_using Schema.complaints_policies Schema.UPDATE d (Some a) r = true
  /\ Schema.rls_check Schema.complaints_policies Schema.UPDATE d (Some a) r = true.
Proof.
  intros H.
  unfold Schema.rls_using, Schema.rls_check, Schema.complaints_policies,
    Schema.using_holds, Schema.check_holds.
  cbn [existsb Schema.pol_for Schema.pol_using Schema.pol_with_check
       Schema.command_eqb andb orb].
  rewrite H. split; now rewrite !orb_true_r.
Qed.

Lemma admin_update_rows (d : Schema.db) (a : uuid) (id : uuid)
      (cols : complaint_update) (now : Z) (rows : list Schema.complaint) :
  Schema.has_role d (Some a) admin = true ->
  Schema.update_rows d (Some a) id cols now rows
  = Some (map (fun r => if Schema.c_id r =? id
                        then Schema.update_updated_at_column now (Schema.set_columns cols r)
                        else r) rows).
Proof.
  intros H. induction rows as [|r rows IH]; [reflexivity|].
  cbn [Schema.update_rows map]. rewrite IH.
  destruct (admin_passes_update_policies d a r H) as [Hu _].
  destruct (admin_passes_update_policies d a
              (Schema.update_updated_at_column now (Schema.set_columns cols r)) H)
    as [_ Hc].
  rewrite Hu, Hc. destruct (Schema.c_id r =? id); reflexivity.
Qed.

(** C6: when an admin saves the dialog, the one update request carries the
    chosen status and [adminRemarks || null]; empty remarks go out as null.
    The backend applies it for an admin caller to every row with that id,
    whatever status the row had: afterwards the row has the chosen status
    (any of the three) and those remarks, and a refreshed [updated_at]. *)
Theorem admin_update_any_status_empty_remarks_null :
  forall (d : Schema.db) (a : uuid) (now : Z)
         (b : AdminDashboard.backend) (s : AdminDashboard.state)
         (selected : AdminDashboard.Complaint),
    Schema.has_role d (Some a) admin = true ->
    AdminDashboard.selectedComplaint s = Some selected ->
    let id := Schema.c_id (AdminDashboard.row selected) in
    let cols := mkUpdate (AdminDashboard.newStatus s)
                         (if AdminDashboard.adminRemarks s =? "" then None
                          else Some (AdminDashboard.adminRemarks s)) in
    filter is_update (trace_of (AdminDashboard.handleUpdateComplaint b s))
    = [Net (UpdateComplaint id cols)]
    /\ (exists d',
          Schema.update_complaint (Some a) id cols now d = Some d'
          /\ Schema.complaints d'
             = map (fun r => if Schema.c_id r =? id
                             then Schema.update_updated_at_column now
                                    (Schema.set_columns cols r)
                             else r) (Schema.complaints d)
          /\ (forall r, In r (Schema.complaints d) -> Schema.c_id r = id ->
                exists r', In r' (Schema.complaints d')
                           /\ Schema.c_id r' = id
                           /\ Schema.c_status r' = AdminDashboard.newStatus s
                           /\ Schema.c_admin_remarks r'
                              = (if AdminDashboard.adminRemarks s =? "" then None
                                 else Some (AdminDashboard.adminRemarks s)))).
Proof.
  intros d a now b s selected Hadmin Hsel id cols.
  split.
  - unfold AdminDashboard.handleUpdateComplaint, bind, get. rewrite Hsel.
    assert (Hcols : mkUpdate (AdminDashboard.newStatus s)
                             (or_null (AdminDashboard.adminRemarks s)) = cols).
    { unfold cols, or_null, truthy.
      destruct (AdminDashboard.adminRemarks s =? ""); reflexivity. }
    rewrite Hcols. fold id.
    destruct b as [upd rel]. cbn [AdminDashboard.update_response AdminDashboard.reload].
    destruct upd as [data [err|]|err].
    + reflexivity.
    + cbn. unfold AdminDashboard.fetchComplaints, bind, detached.
      destruct rel as [cr pr]. cbn [AdminDashboard.complaints_response
                                    AdminDashboard.profiles_response].
      destruct cr as [[cd|] [e1|]|e1]; cbn; try reflexivity.
      destruct (pr (AdminDashboard.distinct [] (map Schema.c_user_id cd)))
        as [pd [e2|]|e2]; cbn; reflexivity.
    + reflexivity.
  - unfold Schema.update_complaint. rewrite (admin_update_rows d a id cols now _ Hadmin).
    eexists. split; [reflexivity|]. cbn [Schema.complaints]. split; [reflexivity|].
    intros r Hin Hid.
    exists (Schema.update_updated_at_column now (Schema.set_columns cols r)).
    split.
    + apply in_map_iff. exists r. split; [|exact Hin].
      apply String.eqb_eq in Hid. now rewrite Hid.
    + cbn. repeat split; assumption.
Qed.

Lemma admin_update_any_status_empty_remarks_null_witness :
  exists d',
    Schema.update_complaint (Some "a1") "c1" (mkUpdate Pending None) 50
      (Schema.mkDb [] [] [Schema.mkRole "a1" admin]
         [Schema.mkComplaint "c1" "s1" "Wifi down" Technical "The lab wifi is down" None
                             Resolved (Some "Fixed") 10 20]) = Some d'
    /\ Schema.complaints d'
       = [Schema.mkComplaint "c1" "s1" "Wifi down" Technical "The lab wifi is down" None
                             Pending None 10 50].
Proof.
  pose (r := Schema.mkComplaint "c1" "s1" "Wifi down" Technical "The lab wifi is down"
                                None Resolved (Some "Fixed") 10 20).
  pose (sel := AdminDashboard.mkComplaint r None).
  destruct (admin_update_any_status_empty_remarks_null
              (Schema.mkDb [] [] [Schema.mkRole "a1" admin] [r]) "a1" 50
              (AdminDashboard.mkBackend (Returned None None)
                 (AdminDashboard.mkListing (Returned (Some []) None)
                                           (fun _ => Returned (Some []) None)))
              (AdminDashboard.mkState [sel] [sel] false (Some sel) "all" "all" false
                                      Pending "")
              sel eq_refl eq_refl) as [_ [d' [Hd' [Hrows _]]]].
  exists d'. split; [exact Hd'|exact Hrows].
Defined.

(** ** The admin filter *)

Lemma filter_andb {A} (p q : A -> bool) (l : list A) :
  filter q (filter p l) = filter (fun x => p x && q x) l.
Proof.
  induction l as [|a l IH]; simpl; [reflexivity|].
  destruct (p a) eqn:Hp; simpl.
  - destruct (q a); now rewrite IH.
  - exact IH.
Qed.

Lemma filter_true {A} (p : A -> bool) (l : list A) :
  (forall x, p x = true) -> filter p l = l.
Proof.
  intros H. induction l as [|a l IH]; simpl; [reflexivity|].
  now rewrite H, IH.
Qed.

Lemma filter_pointwise {A} (p q : A -> bool) (l : list A) :
  (forall x, p x = q x) -> filter p l = filter q l.
Proof.
  intros H. induction l as [|a l IH]; simpl; [reflexivity|].
  now rewrite H, IH.
Qed.

Lemma filter_twice {A} (p : A -> bool) (l : list A) :
  filter p (filter p l) = filter p l.
Proof.
  rewrite filter_andb. apply filter_pointwise. intros x. now destruct (p x).
Qed.

(** The list of [filterComplaints] is the input filtered by the
    conjunction of the two predicates. *)
Lemma filtered_is_conjunction (cs : list AdminDashboard.Complaint) (sf cf : string) :
  AdminDashboard.filtered cs sf cf
  = filter (fun c => AdminDashboard.status_matches sf c
                     && AdminDashboard.category_matches cf c) cs.
Proof.
  unfold AdminDashboard.filtered, AdminDashboard.status_matches,
    AdminDashboard.category_matches.
  destruct (sf =? "all"), (cf =? "all"); cbn [negb orb].
  - symmetry. now apply filter_true.
  - apply filter_pointwise. reflexivity.
  - apply filter_pointwise. intros x. now rewrite andb_true_r.
  - apply filter_andb.
Qed.

(** C8: [filterComplaints] stores a list that depends only on the
    complaint list and the two filter values (and issues no request, shows
    nothing and changes nothing else); that list is the input filtered by
    the status predicate AND the category predicate; filtering again with
    the same values changes nothing; applying the status filter and then
    the category filter, or the reverse, gives that same list; and with
    both filters at the wildcard the list is the input. *)
Theorem filterComplaints_and_idempotent_commutative :
  forall (s : AdminDashboard.state) (cs : list AdminDashboard.Complaint) (sf cf : string),
    AdminDashboard.filterComplaints s
    = (Normal tt,
       AdminDashboard.mkState (AdminDashboard.complaints s)
         (AdminDashboard.filtered (AdminDashboard.complaints s)
            (AdminDashboard.statusFilter s) (AdminDashboard.categoryFilter s))
         (AdminDashboard.loading s) (AdminDashboard.selectedComplaint s)
         (AdminDashboard.statusFilter s) (AdminDashboard.categoryFilter s)
         (AdminDashboard.updating s) (AdminDashboard.newStatus s)
         (AdminDashboard.adminRemarks s),
       [])
    /\ AdminDashboard.filtered cs sf cf
       = filter (fun c => AdminDashboard.status_matches sf c
                          && AdminDashboard.category_matches cf c) cs
    /\ AdminDashboard.filtered (AdminDashboard.filtered cs sf cf) sf cf
       = AdminDashboard.filtered cs sf cf
    /\ AdminDashboard.filtered (AdminDashboard.filtered cs sf "all") "all" cf
       = AdminDashboard.filtered cs sf cf
    /\ AdminDashboard.filtered (AdminDashboard.filtered cs "all" cf) sf "all"
       = AdminDashboard.filtered cs sf cf
    /\ AdminDashboard.filtered cs "all" "all" = cs.
Proof.
  intros s cs sf cf.
  refine (conj _ (conj (filtered_is_conjunction cs sf cf) (conj _ (conj _ (conj _ _))))).
  - reflexivity.
  - rewrite !filtered_is_conjunction. apply filter_twice.
  - rewrite !filtered_is_conjunction, filter_andb. apply filter_pointwise.
    intros x. unfold AdminDashboard.status_matches, AdminDashboard.category_matches.
    cbn [String.eqb orb]. now rewrite andb_true_r.
  - rewrite !filtered_is_conjunction, filter_andb. apply filter_pointwise.
    intros x. unfold AdminDashboard.status_matches, AdminDashboard.category_matches.
    cbn [String.eqb orb]. rewrite andb_true_r. cbn [andb]. apply andb_comm.
  - reflexivity.
Qed.

(** ** The admin listing *)

Lemma find_none_iff {A} (f : A -> bool) (l : list A) :
  find f l = None <-> forall x, In x l -> f x = false.
Proof.
  split.
  - intros H x Hin. exact (find_none f l H x Hin).
  - intros H. induction l as [|a l IH]; simpl; [reflexivity|].
    rewrite (H a (or_introl eq_refl)). apply IH. intros x Hx. apply H. now right.
Qed.

(** With unique ids, [find] by id returns the profile that has the id. *)
Lemma find_profile_unique (ps : list Schema.profile) (p : Schema.profile) :
  NoDup (map Schema.p_id ps) ->
  In p ps ->
  find (fun q => Schema.p_id q =? Schema.p_id p) ps = Some p.
Proof.
  intros Hnd Hin. induction ps as [|a ps IH]; [contradiction|].
  simpl in Hnd. inversion Hnd as [|x l Hnotin Hnd']; subst.
  simpl. destruct (Schema.p_id a =? Schema.p_id p) eqn:E.
  - destruct Hin as [->|Hin]; [reflexivity|].
    exfalso. apply Hnotin. apply String.eqb_eq in E. rewrite E.
    now apply in_map.
  - destruct Hin as [->|Hin]; [now rewrite String.eqb_refl in E|].
    now apply IH.
Qed.

(** C9: when both reads succeed, [fetchComplaints] never fails: it stores
    one merged entry per complaint, in order, and shows no error.  An entry
    whose owner id matches no fetched profile (or when no profile list came
    back) has [profiles = null] and is shown as "Unknown" and "N/A"; an
    entry whose owner id is the id of a fetched profile (ids being the
    primary key) carries that profile, name and email included. *)
Theorem fetchComplaints_merge_placeholders :
  forall (complaintsData : list Schema.complaint)
         (profilesData : option (list Schema.profile))
         (b : AdminDashboard.listing) (s : AdminDashboard.state)
         (c : Schema.complaint),
    AdminDashboard.complaints_response b = Returned (Some complaintsData) None ->
    AdminDashboard.profiles_response b
      (AdminDashboard.distinct [] (map Schema.c_user_id complaintsData))
    = Returned profilesData None ->
    In c complaintsData ->
    let r := AdminDashboard.fetchComplaints b s in
    let shown := AdminDashboard.mkComplaint c
                   (AdminDashboard.find_profile profilesData (Schema.c_user_id c)) in
    value_of r = Normal tt
    /\ filter is_toast (trace_of r) = []
    /\ AdminDashboard.complaints (state_of r)
       = AdminDashboard.merge complaintsData profilesData
    /\ map AdminDashboard.row (AdminDashboard.complaints (state_of r)) = complaintsData
    /\ In shown (AdminDashboard.complaints (state_of r))
    /\ ((forall ps p, profilesData = Some ps -> In p ps ->
                      Schema.p_id p <> Schema.c_user_id c) ->
        AdminDashboard.profiles shown = None
        /\ AdminDashboard.shown_name shown = "Unknown"
        /\ AdminDashboard.shown_email shown = "N/A")
    /\ (forall ps p, profilesData = Some ps -> NoDup (map Schema.p_id ps) ->
                     In p ps -> Schema.p_id p = Schema.c_user_id c ->
        AdminDashboard.profiles shown = Some p
        /\ (Schema.p_full_name p <> "" ->
            AdminDashboard.shown_name shown = Schema.p_full_name p)
        /\ (Schema.p_email p <> "" ->
            AdminDashboard.shown_email shown = Schema.p_email p)).
Proof.
  intros complaintsData profilesData b s c Hc Hp Hin r shown.
  assert (Hr : r = (Normal tt,
                    AdminDashboard.mkState
                      (AdminDashboard.merge complaintsData profilesData)
                      (AdminDashboard.filteredComplaints s) false
                      (AdminDashboard.selectedComplaint s)
                      (AdminDashboard.statusFilter s) (AdminDashboard.categoryFilter s)
                      (AdminDashboard.updating s) (AdminDashboard.newStatus s)
                      (AdminDashboard.adminRemarks s),
                    [Net SelectAllComplaints;
                     Net (SelectProfiles
                            (AdminDashboard.distinct []
                               (map Schema.c_user_id complaintsData)))])).
  { unfold r, AdminDashboard.fetchComplaints, bind. rewrite Hc. cbn.
    rewrite Hp. reflexivity. }
  rewrite Hr. cbn [value_of state_of trace_of fst snd AdminDashboard.complaints].
  refine (conj eq_refl (conj eq_refl (conj eq_refl (conj _ (conj _ (conj _ _)))))).
  - unfold AdminDashboard.merge. rewrite map_map. cbn. apply map_id.
  - unfold AdminDashboard.merge. apply in_map_iff. exists c. split; [reflexivity|exact Hin].
  - intros Hnone. assert (Hf : AdminDashboard.profiles shown = None).
    { unfold shown. cbn. destruct profilesData as [ps|]; [|reflexivity]. cbn.
      apply find_none_iff. intros p Hp'. apply String.eqb_neq. now apply (Hnone ps). }
    unfold AdminDashboard.shown_name, AdminDashboard.shown_email. rewrite Hf.
    repeat split; reflexivity.
  - intros ps p -> Hnd Hp' Hid.
    assert (Hf : AdminDashboard.profiles shown = Some p).
    { unfold shown. cbn. rewrite <- Hid. now apply find_profile_unique. }
    unfold AdminDashboard.shown_name, AdminDashboard.shown_email. rewrite Hf.
    split; [reflexivity|]. cbn. unfold truthy.
    split; intros Hne; apply String.eqb_neq in Hne; now rewrite Hne.
Qed.

Lemma fetchComplaints_merge_placeholders_witness :
  AdminDashboard.complaints
    (state_of
       (AdminDashboard.fetchComplaints
          (AdminDashboard.mkListing
             (Returned
                (Some [Schema.mkComplaint "c1" "s1" "Wifi down" Technical
                         "The lab wifi is down" None Pending None 10 10;
                       Schema.mkComplaint "c2" "gone" "Projector" Facility
                         "The projector is broken" None Pending None 5 5]) None)
             (fun _ => Returned (Some [Schema.mkProfile "s1" "Asha" "asha@example.com"])
                                None))
          (AdminDashboard.mkState [] [] true None "all" "all" false Pending "")))
  = [AdminDashboard.mkComplaint
       (Schema.mkComplaint "c1" "s1" "Wifi down" Technical "The lab wifi is down" None
                           Pending None 10 10)
       (Some (Schema.mkProfile "s1" "Asha" "asha@example.com"));
     AdminDashboard.mkComplaint
       (Schema.mkComplaint "c2" "gone" "Projector" Facility "The projector is broken"
                           None Pending None 5 5)
       None].
Proof.
  pose (c1 := Schema.mkComplaint "c1" "s1" "Wifi down" Technical "The lab wifi is down"
                                 None Pending None 10 10).
  pose (c2 := Schema.mkComplaint "c2" "gone" "Projector" Facility
                                 "The projector is broken" None Pending None 5 5).
  pose (ps := [Schema.mkProfile "s1" "Asha" "asha@example.com"]).
  destruct (fetchComplaints_merge_placeholders [c1; c2] (Some ps)
              (AdminDashboard.mkListing (Returned (Some [c1; c2]) None)
                                        (fun _ => Returned (Some ps) None))
              (AdminDashboard.mkState [] [] true None "all" "all" false Pending "")
              c2 eq_refl eq_refl (or_intror (or_introl eq_refl)))
    as [_ [_ [Hm _]]].
  exact Hm.
Defined.

(** ** The create-admin function *)

(** C10: on any request other than the CORS preflight, the function lists
    the users once and looks for the bootstrap email among them.  If it is
    there, the function answers 200 "Admin account already exists" and
    issues no [createUser].  If it is not, the function issues exactly one
    [createUser], for admin@brototype.com with the password "password123",
    the email confirmed and the name "Admin". *)
Theorem create_admin_endpoint :
  forall (b : CreateAdmin.backend) (req : CreateAdmin.request)
         (existingUser : option (list AuthContext.User)) (error : option string),
    CreateAdmin.method req <> "OPTIONS" ->
    CreateAdmin.listUsers b = Returned existingUser error ->
    let r := CreateAdmin.serve b req tt in
    let adminExists :=
      match existingUser with
      | Some us => existsb (fun u => is_bootstrap (AuthContext.email u)) us
      | None => false
      end in
    (adminExists = true ->
       trace_of r = [Net ListUsers]
       /\ value_of r
          = Normal (CreateAdmin.mkResponse
                      (CreateAdmin.Message "Admin account already exists") 200 true))
    /\ (adminExists = false ->
        trace_of r
        = [Net ListUsers;
           Net (CreateUser (mkCreateUser "admin@brototype.com" "password123" true "Admin"))]
        /\ (forall newUser,
              CreateAdmin.createUser b = Returned (Some newUser) None ->
              value_of r
              = Normal (CreateAdmin.mkResponse
                          (CreateAdmin.Created "Admin account created successfully"
                             (AuthContext.id newUser) (AuthContext.email newUser))
                          200 true))).
Proof.
  intros b req existingUser error Hm Hl r adminExists.
  apply String.eqb_neq in Hm.
  unfold r, CreateAdmin.serve. rewrite Hm.
  unfold try_catch, bind. rewrite Hl. fold adminExists.
  split; intros Hex; rewrite Hex.
  - split; reflexivity.
  - cbn. destruct (CreateAdmin.createUser b) as [[nu|] [e|]|e] eqn:Hc;
      (split; [reflexivity|]); intros newUser Heq; try discriminate Heq.
    injection Heq as ->. reflexivity.
Qed.

Lemma create_admin_endpoint_witness :
  trace_of
    (CreateAdmin.serve
       (CreateAdmin.mkBackend
          (Returned (Some [AuthContext.mkUser "s1" (Some "asha@example.com")]) None)
          (Returned (Some (AuthContext.mkUser "a1" (Some "admin@brototype.com"))) None))
       (CreateAdmin.mkRequest "POST") tt)
  = [Net ListUsers;
     Net (CreateUser (mkCreateUser "admin@brototype.com" "password123" true "Admin"))].
Proof.
  assert (Hm : "POST" <> "OPTIONS") by discriminate.
  destruct (create_admin_endpoint
              (CreateAdmin.mkBackend
                 (Returned (Some [AuthContext.mkUser "s1" (Some "asha@example.com")]) None)
                 (Returned (Some (AuthContext.mkUser "a1" (Some "admin@brototype.com")))
                           None))
              (CreateAdmin.mkRequest "POST")
              (Some [AuthContext.mkUser "s1" (Some "asha@example.com")]) None
              Hm eq_refl) as [_ H].
  destruct (H eq_refl) as [Ht _]. exact Ht.
Defined.

(** ** Student submission *)

Ltac eff_run :=
  cbv [StudentDashboard.handleSubmit StudentDashboard.uploadFile
       StudentDashboard.insertComplaint StudentDashboard.fetchComplaints
       StudentDashboard.handleFileChange StudentDashboard.handle
       StudentDashboard.setSubmitting StudentDashboard.setUploading
       StudentDashboard.setTitle StudentDashboard.setCategory
       StudentDashboard.setDescription StudentDashboard.setFile
       StudentDashboard.setOpen StudentDashboard.setComplaints
       StudentDashboard.setLoading
       bind ret emit modify get throw detached try_catch finally
       state_of trace_of value_of fst snd app
       StudentDashboard.user StudentDashboard.file StudentDashboard.title
       StudentDashboard.category StudentDashboard.description
       StudentDashboard.upload_response StudentDashboard.insert_response
       StudentDashboard.list_response StudentDashboard.public_url].

Ltac trace_cases H :=
  repeat (destruct H as [H|H]; try discriminate H); try contradiction.

(** *** How the monad's operations treat the form's file *)

Section KeepsFile.

Import StudentDashboard.

Lemma keeps_ret {A} (a : A) (s : state) : keeps_file (ret a) s.
Proof. split; [now left|intros path g []]. Qed.

Lemma keeps_throw {A} (e : js_error) (s : state) : keeps_file (@throw state A e) s.
Proof. split; [now left|intros path g []]. Qed.

Lemma keeps_emit (e : effect) (s : state) :
  is_upload e = false -> keeps_file (emit e) s.
Proof.
  intros He. split; [now left|]. intros path g [H|[]]. subst e. discriminate He.
Qed.

Lemma keeps_emit_upload (path : string) (f : File) (s : state) :
  file s = Some f -> keeps_file (emit (Net (StorageUpload path f))) s.
Proof.
  intros Hf. split; [now left|]. intros p g [H|[]]. injection H as _ <-. exact Hf.
Qed.

Lemma keeps_modify (f : state -> state) (s : state) :
  file (f s) = file s \/ file (f s) = None -> keeps_file (modify f) s.
Proof. intros H. split; [exact H|intros path g []]. Qed.

Lemma keeps_bind {A B} (m : Eff state A) (k : A -> Eff state B) (s : state) :
  keeps_file m s ->
  (forall a s', file s' = file s \/ file s' = None -> keeps_file (k a) s') ->
  keeps_file (bind m k) s.
Proof.
  unfold keeps_file, bind, state_of, trace_of. intros [Hs Ht] Hk.
  destruct (m s) as [[[a|e] s1] t1]; cbn [fst snd] in *; [|split; assumption].
  specialize (Hk a s1 Hs). destruct Hk as [Hs2 Ht2].
  destruct (k a s1) as [[c s2] t2]; cbn [fst snd] in *. split.
  - destruct Hs2 as [Hs2|Hs2]; [rewrite Hs2; exact Hs|now right].
  - intros path g Hin. apply in_app_or in Hin. destruct Hin as [Hin|Hin].
    + now apply (Ht path).
    + specialize (Ht2 path g Hin). destruct Hs as [Hs|Hs]; congruence.
Qed.

Lemma keeps_bind_get {B} (k : state -> Eff state B) (s : state) :
  keeps_file (k s) s -> keeps_file (bind get k) s.
Proof.
  unfold keeps_file, bind, get, state_of, trace_of. intros H.
  destruct (k s s) as [[c s2] t2]; cbn [fst snd app] in *. exact H.
Qed.

Lemma keeps_bind_modify {B} (f : state -> state) (k : unit -> Eff state B) (s : state) :
  file (f s) = file s ->
  keeps_file (k tt) (f s) ->
  keeps_file (bind (modify f) k) s.
Proof.
  unfold keeps_file, bind, modify, state_of, trace_of. intros Hf H.
  destruct (k tt (f s)) as [[c s2] t2]; cbn [fst snd app] in *.
  rewrite <- Hf. exact H.
Qed.

Lemma keeps_try_catch {A} (m : Eff state A) (h : js_error -> Eff state A) (s : state) :
  keeps_file m s ->
  (forall e s', file s' = file s \/ file s' = None -> keeps_file (h e) s') ->
  keeps_file (try_catch m h) s.
Proof.
  unfold keeps_file, try_catch, state_of, trace_of. intros [Hs Ht] Hh.
  destruct (m s) as [[[a|e] s1] t1]; cbn [fst snd] in *; [split; assumption|].
  specialize (Hh e s1 Hs). destruct Hh as [Hs2 Ht2].
  destruct (h e s1) as [[c s2] t2]; cbn [fst snd] in *. split.
  - destruct Hs2 as [Hs2|Hs2]; [rewrite Hs2; exact Hs|now right].
  - intros path g Hin. apply in_app_or in Hin. destruct Hin as [Hin|Hin].
    + now apply (Ht path).
    + specialize (Ht2 path g Hin). destruct Hs as [Hs|Hs]; congruence.
Qed.

Lemma keeps_finally {A} (m : Eff state A) (f : Eff state unit) (s : state) :
  keeps_file m s ->
  (forall s', file s' = file s \/ file s' = None -> keeps_file f s') ->
  keeps_file (finally m f) s.
Proof.
  unfold keeps_file, finally, state_of, trace_of. intros [Hs Ht] Hf.
  destruct (m s) as [[c s1] t1]; cbn [fst snd] in *.
  specialize (Hf s1 Hs). destruct Hf as [Hs2 Ht2].
  destruct (f s1) as [[[u|e] s2] t2]; cbn [fst snd] in *.
  all: split;
    [ destruct Hs2 as [Hs2|Hs2]; [rewrite Hs2; exact Hs|now right]
    | intros path g Hin; apply in_app_or in Hin; destruct Hin as [Hin|Hin];
      [ now apply (Ht path)
      | specialize (Ht2 path g Hin); destruct Hs as [Hs|Hs]; congruence ] ].
Qed.

Lemma keeps_detached {A} (m : Eff state A) (s : state) :
  keeps_file m s -> keeps_file (detached m) s.
Proof.
  unfold keeps_file, detached, state_of, trace_of. intros H.
  destruct (m s) as [[c s1] t1]; cbn [fst snd] in *. exact H.
Qed.

(** One step of a syntax-directed proof of [keeps_file]. *)
Ltac keeps_step :=
  lazymatch goal with
  | |- keeps_file (bind get _) _ => apply keeps_bind_get
  | |- keeps_file (bind (modify _) _) _ => apply keeps_bind_modify; [reflexivity|]
  | |- keeps_file (bind _ _) _ => apply keeps_bind; [|intros ? ? ?]
  | |- keeps_file (try_catch _ _) _ => apply keeps_try_catch; [|intros ? ? ?]
  | |- keeps_file (finally _ _) _ => apply keeps_finally; [|intros ? ?]
  | |- keeps_file (detached _) _ => apply keeps_detached
  | |- keeps_file (ret _) _ => apply keeps_ret
  | |- keeps_file (throw _) _ => apply keeps_throw
  | |- keeps_file (emit (Net (StorageUpload _ _))) _ =>
      apply keeps_emit_upload; cbn; congruence
  | |- keeps_file (emit _) _ => apply keeps_emit; reflexivity
  | |- keeps_file (match ?x with _ => _ end) _ => destruct x eqn:?
  | |- keeps_file _ _ =>
      apply keeps_modify; cbn; first [now left | now right]
  end.

Lemma fetchComplaints_keeps_file (b : backend) (s : state) :
  keeps_file (fetchComplaints b) s.
Proof. unfold fetchComplaints. repeat keeps_step. Qed.

Lemma insertComplaint_keeps_file (b : backend) (s0 : state) (v : validated)
      (fileUrl : option string) (s : state) :
  keeps_file (insertComplaint b s0 v fileUrl) s.
Proof.
  unfold insertComplaint. repeat keeps_step.
  apply fetchComplaints_keeps_file.
Qed.

Lemma uploadFile_keeps_file (now : N) (b : backend) (s : state) :
  keeps_file (uploadFile now b) s.
Proof. unfold uploadFile, setUploading. repeat keeps_step. Qed.

(** What one [handleSubmit] can do with the form's file: the only file it
    uploads is the one the form holds, and afterwards the form holds the
    same file or none. *)
Lemma handleSubmit_keeps_file (now : N) (b : backend) (s : state) :
  keeps_file (handleSubmit now b) s.
Proof.
  unfold handleSubmit.
  repeat first [ apply uploadFile_keeps_file
               | apply insertComplaint_keeps_file
               | keeps_step ].
Qed.

End KeepsFile.

Lemma handleFileChange_within_limit (selectedFile : option File)
      (s : StudentDashboard.state) :
  StudentDashboard.file_within_limit s ->
  StudentDashboard.file_within_limit
    (state_of (StudentDashboard.handleFileChange selectedFile s))
  /\ trace_of (StudentDashboard.handleFileChange selectedFile s)
     = match selectedFile with
       | Some f => if (file_size f >? StudentDashboard.max_file_bytes)%Z
                   then [ToastError (Text "File size must be less than 10MB")]
                   else []
       | None => []
       end.
Proof.
  intros Hs. unfold StudentDashboard.handleFileChange.
  destruct selectedFile as [f|]; [|split; [exact Hs|reflexivity]].
  destruct (file_size f >? StudentDashboard.max_file_bytes)%Z eqn:E.
  - split; [exact Hs|reflexivity].
  - split; [|reflexivity]. unfold StudentDashboard.file_within_limit. cbn.
    rewrite Z.gtb_ltb, Z.ltb_ge in E. exact E.
Qed.

(** Every event keeps the form's file within the limit and uploads nothing
    above it. *)
Lemma handle_within_limit (e : StudentDashboard.ui_event) (s : StudentDashboard.state) :
  StudentDashboard.file_within_limit s ->
  StudentDashboard.file_within_limit (state_of (StudentDashboard.handle e s))
  /\ forallb StudentDashboard.upload_within_limit
             (trace_of (StudentDashboard.handle e s)) = true.
Proof.
  intros Hs. destruct e as [v|v|v|sel|v|now b].
  1-3,5: split; [exact Hs|reflexivity].
  - destruct (handleFileChange_within_limit sel s Hs) as [Hst Htr].
    split; [exact Hst|]. cbn [StudentDashboard.handle]. rewrite Htr.
    destruct sel as [f|]; [|reflexivity].
    destruct (file_size f >? StudentDashboard.max_file_bytes)%Z; reflexivity.
  - pose proof (handleSubmit_keeps_file now b s) as [Hfile Hup].
    assert (Hst : state_of (StudentDashboard.handle (StudentDashboard.Submit now b) s)
                  = state_of (StudentDashboard.handleSubmit now b s)).
    { cbn [StudentDashboard.handle]. unfold detached.
      destruct (StudentDashboard.handleSubmit now b s) as [[c s1] t1]. reflexivity. }
    assert (Htr : trace_of (StudentDashboard.handle (StudentDashboard.Submit now b) s)
                  = trace_of (StudentDashboard.handleSubmit now b s)).
    { cbn [StudentDashboard.handle]. unfold detached.
      destruct (StudentDashboard.handleSubmit now b s) as [[c s1] t1]. reflexivity. }
    rewrite Hst, Htr. split.
    + unfold StudentDashboard.file_within_limit in *.
      destruct Hfile as [-> | ->]; [exact Hs|exact I].
    + apply forallb_forall. intros x Hx.
      destruct x as [c0| | | | ]; try reflexivity.
      destruct c0 as [ | | | |path g| | | | ]; try reflexivity.
      apply Hup in Hx. unfold StudentDashboard.file_within_limit in Hs.
      rewrite Hx in Hs. cbn. now apply Z.leb_le.
Qed.

Lemma run_within_limit (es : list StudentDashboard.ui_event) :
  forall s : StudentDashboard.state,
    StudentDashboard.file_within_limit s ->
    forallb StudentDashboard.upload_within_limit
            (trace_of (StudentDashboard.run es s)) = true.
Proof.
  induction es as [|e es IH]; intros s Hs; [reflexivity|].
  destruct (handle_within_limit e s Hs) as [Hst Htr].
  specialize (IH _ Hst).
  cbn [StudentDashboard.run]. unfold bind.
  unfold state_of, trace_of in *.
  destruct (StudentDashboard.handle e s) as [[c s1] t1] eqn:He. cbn [fst snd] in *.
  assert (Hc : c = Normal tt).
  { destruct e; cbn in He; try (injection He as <- _ _; reflexivity).
    - unfold StudentDashboard.handleFileChange in He.
      destruct selectedFile as [f|];
        [destruct (file_size f >? StudentDashboard.max_file_bytes)%Z|];
        injection He as <- _ _; reflexivity.
    - unfold detached in He.
      destruct (StudentDashboard.handleSubmit now b s) as [[c' s'] t'].
      injection He as <- _ _. reflexivity. }
  subst c.
  destruct (StudentDashboard.run es s1) as [[c2 s2] t2]. cbn [fst snd] in *.
  rewrite forallb_app, Htr, IH. reflexivity.
Qed.

(** C4, as stated, fails on two concrete sessions of a signed-in student
    with a valid form.  In the first the student picks a 1 KB file whose
    type is outside the allow-list: nothing rejects it and the submission
    uploads it.  In the second the student picks a 15 MB file: the pick is
    refused, but the submission that follows still inserts a Complaint
    (without attachment). *)
Lemma submission_ignores_type_and_survives_oversize :
  let u := AuthContext.mkUser "s1" (Some "asha@example.com") in
  let exe := mkFile "tool.exe" 1024 "application/x-msdownload" in
  let big := mkFile "scan.pdf" (15 * 1024 * 1024) "application/pdf" in
  Schema.mime_allowed (file_type exe) = false
  /\ trace_of (StudentDashboard.run
                 (StudentDashboard.valid_form ++ [StudentDashboard.ChooseFile (Some exe);
                                 StudentDashboard.Submit 1700000000000 StudentDashboard.accepting_backend])
                 (StudentDashboard.initial u))
     = [ Net (StorageUpload "s1/1700000000000.exe" exe);
         Net (InsertComplaint
                (mkInsert "s1" "Wifi down" Technical
                   "The lab wifi has been down since Monday morning"
                   (Some "https://files.example/complaint-files/s1/1700000000000.exe")));
         ToastSuccess "Complaint submitted successfully!";
         Net (SelectOwnComplaints "s1") ]
  /\ (file_size big > StudentDashboard.max_file_bytes)%Z
  /\ trace_of (StudentDashboard.run
                 (StudentDashboard.valid_form ++ [StudentDashboard.ChooseFile (Some big);
                                 StudentDashboard.Submit 1700000000000 StudentDashboard.accepting_backend])
                 (StudentDashboard.initial u))
     = [ ToastError (Text "File size must be less than 10MB");
         Net (InsertComplaint
                (mkInsert "s1" "Wifi down" Technical
                   "The lab wifi has been down since Monday morning" None));
         ToastSuccess "Complaint submitted successfully!";
         Net (SelectOwnComplaints "s1") ].
Proof.
  cbv zeta. repeat split; vm_compute; reflexivity.
Qed.

(** C4, amended: choosing a file larger than 10MB is refused on the spot:
    [handleFileChange] shows the error, issues no request and leaves the
    form, the file it holds included, as it was.  Hence no sequence of form
    events of a signed-in student ever uploads that file, nor any file above
    the limit.  A file within the limit is stored whatever its type: the
    handler never reads the type. *)
Theorem oversize_file_refused_at_selection :
  forall f : File,
    (file_size f > StudentDashboard.max_file_bytes)%Z ->
    (forall s : StudentDashboard.state,
        StudentDashboard.handleFileChange (Some f) s
        = (Normal tt, s, [ToastError (Text "File size must be less than 10MB")]))
    /\ (forall (u : AuthContext.User) (es : list StudentDashboard.ui_event) (path : string),
          ~ In (Net (StorageUpload path f))
               (trace_of (StudentDashboard.run es (StudentDashboard.initial u))))
    /\ (forall (u : AuthContext.User) (es : list StudentDashboard.ui_event),
          forallb StudentDashboard.upload_within_limit
                  (trace_of (StudentDashboard.run es (StudentDashboard.initial u))) = true)
    /\ (forall (g : File) (s : StudentDashboard.state),
          (file_size g <= StudentDashboard.max_file_bytes)%Z ->
          StudentDashboard.handleFileChange (Some g) s
          = StudentDashboard.setFile (Some g) s).
Proof.
  intros f Hbig.
  assert (Hinit : forall u, StudentDashboard.file_within_limit (StudentDashboard.initial u))
    by (intros u; exact I).
  refine (conj _ (conj _ (conj _ _))).
  - intros s. unfold StudentDashboard.handleFileChange.
    apply Z.gtb_gt in Hbig. rewrite Hbig. reflexivity.
  - intros u es path Hin.
    pose proof (run_within_limit es _ (Hinit u)) as Hall.
    rewrite forallb_forall in Hall. specialize (Hall _ Hin).
    cbn [StudentDashboard.upload_within_limit] in Hall.
    apply Z.leb_le in Hall. lia.
  - intros u es. apply run_within_limit, Hinit.
  - intros g s Hle. unfold StudentDashboard.handleFileChange.
    destruct (file_size g >? StudentDashboard.max_file_bytes)%Z eqn:E; [|reflexivity].
    apply Z.gtb_gt in E. lia.
Qed.

Lemma oversize_file_refused_at_selection_witness :
  StudentDashboard.handleFileChange
    (Some (mkFile "scan.pdf" (15 * 1024 * 1024) "application/pdf"))
    (StudentDashboard.initial (AuthContext.mkUser "s1" (Some "asha@example.com")))
  = (Normal tt,
     StudentDashboard.initial (AuthContext.mkUser "s1" (Some "asha@example.com")),
     [ToastError (Text "File size must be less than 10MB")]).
Proof.
  assert (Hbig : (file_size (mkFile "scan.pdf" (15 * 1024 * 1024) "application/pdf")
                  > StudentDashboard.max_file_bytes)%Z) by reflexivity.
  destruct (oversize_file_refused_at_selection
              (mkFile "scan.pdf" (15 * 1024 * 1024) "application/pdf") Hbig) as [H _].
  apply H.
Defined.

(** C5: when the form holds a file and the upload does not succeed,
    [handleSubmit] issues no Complaint insert; if the upload was issued at
    all, the toast "Failed to upload file" is shown.  With valid fields and
    a signed-in student the upload is issued, so the run is exactly: the
    upload, the console line, the toast; the function returns normally and
    the form keeps its contents. *)
Theorem upload_failure_aborts_submission :
  forall (now : N) (b : StudentDashboard.backend) (s : StudentDashboard.state) (f : File),
    StudentDashboard.file s = Some f ->
    StudentDashboard.upload_fails b ->
    let r := StudentDashboard.handleSubmit now b s in
    filter is_insert (trace_of r) = []
    /\ (existsb is_upload (trace_of r) = true ->
        In (ToastError (Text "Failed to upload file")) (trace_of r))
    /\ (forall (v : StudentDashboard.validated) (u : AuthContext.User),
          StudentDashboard.complaintSchema_parse (StudentDashboard.title s)
            (StudentDashboard.category s) (StudentDashboard.description s) = inl v ->
          StudentDashboard.user s = Some u ->
          existsb is_upload (trace_of r) = true
          /\ filter is_toast (trace_of r) = [ToastError (Text "Failed to upload file")]
          /\ value_of r = Normal tt
          /\ StudentDashboard.file (state_of r) = Some f
          /\ StudentDashboard.title (state_of r) = StudentDashboard.title s
          /\ StudentDashboard.description (state_of r) = StudentDashboard.description s).
Proof.
  intros now b s f Hf Hfail.
  destruct s as [u cs ld sb op ti ca de fi up]. cbn in Hf. subst fi.
  destruct b as [ur pu ir lr]. unfold StudentDashboard.upload_fails in Hfail.
  cbn [StudentDashboard.upload_response] in Hfail.
  eff_run.
  destruct (StudentDashboard.complaintSchema_parse ti ca de) as [v|[|i issues]] eqn:Hparse.
  2,3: cbn; refine (conj eq_refl (conj _ _));
       [intros H; discriminate H | intros v u' Hv; discriminate Hv].
  destruct u as [usr|].
  - destruct ur as [d0 [e0|]|e0]; [| contradiction |]; cbn;
      (refine (conj eq_refl (conj _ _));
       [ intros _; right; right; left; reflexivity
       | intros v' u' _ _; repeat split; reflexivity ]).
  - cbn. refine (conj eq_refl (conj _ _)).
    + intros H; discriminate H.
    + intros v' u' _ Hu. discriminate Hu.
Qed.

Lemma upload_failure_aborts_submission_witness :
  let b := StudentDashboard.mkBackend (Returned None (Some "Payload too large"))
             (fun path => path) (Returned None None) (Returned (Some []) None) in
  let s := StudentDashboard.mkState
             (Some (AuthContext.mkUser "s1" (Some "asha@example.com")))
             [] false false true "Wifi down" "Technical"
             "The lab wifi has been down since Monday morning"
             (Some (mkFile "photo.png" 2048 "image/png")) false in
  filter is_insert (trace_of (StudentDashboard.handleSubmit 1700000000000 b s)) = []
  /\ In (ToastError (Text "Failed to upload file"))
        (trace_of (StudentDashboard.handleSubmit 1700000000000 b s)).
Proof.
  intros b s.
  pose proof (upload_failure_aborts_submission 1700000000000 b s
                (mkFile "photo.png" 2048 "image/png") eq_refl I) as H.
  destruct H as [Hnone [Htoast _]].
  split; [exact Hnone|]. apply Htoast. vm_compute. reflexivity.
Defined.

(** * Further properties *)

(** ** Databases filled by sign-ups *)

Lemma existsb_id_in {A} (f : A -> uuid) (k : uuid) (l : list A) :
  existsb (fun x => f x =? k) l = true <-> In k (map f l).
Proof.
  rewrite existsb_exists, in_map_iff. split.
  - intros [x [Hin Hx]]. apply String.eqb_eq in Hx. now exists x.
  - intros [x [Hx Hin]]. exists x. split; [exact Hin|]. now apply String.eqb_eq.
Qed.

Lemma existsb_id_not_in {A} (f : A -> uuid) (k : uuid) (l : list A) :
  existsb (fun x => f x =? k) l = false <-> ~ In k (map f l).
Proof.
  rewrite <- existsb_id_in. destruct (existsb _ l); split; intros H; congruence.
Qed.

Lemma has_role_shaped (us : list Schema.auth_user) (ps : list Schema.profile)
      (cs : list Schema.complaint) (uid : uuid) (role : app_role) :
  Schema.has_role
    (Schema.mkDb us ps (map (fun u => Schema.mkRole (Schema.au_id u) (Schema.role_for u)) us) cs)
    (Some uid) role
  = existsb (fun u => (Schema.au_id u =? uid) && app_role_eqb (Schema.role_for u) role) us.
Proof.
  unfold Schema.has_role. cbn [Schema.user_roles].
  induction us as [|u us IH]; [reflexivity|].
  cbn [map existsb]. rewrite IH.
  cbn [Schema.ur_user_id Schema.ur_role Schema.uid_is].
  now rewrite (String.eqb_sym uid).
Qed.

(** What a successful sign-up does to a database of the trigger's shape. *)
Lemma insert_auth_user_shaped (NEW : Schema.auth_user) (d d' : Schema.db) :
  Schema.trigger_shaped d ->
  Schema.insert_auth_user NEW d = Some d' ->
  Schema.trigger_shaped d'
  /\ Schema.users d' = Schema.users d ++ [NEW]
  /\ Schema.complaints d' = Schema.complaints d.
Proof.
  intros (Hnd & Hp & He & Hr) Hins.
  unfold Schema.insert_auth_user in Hins.
  destruct (existsb (fun u => Schema.au_id u =? Schema.au_id NEW) (Schema.users d)) eqn:Hu;
    [discriminate|].
  unfold Schema.handle_new_user, Schema.insert_profile in Hins.
  destruct (Schema.au_email NEW) as [e|] eqn:Hemail; [|discriminate].
  cbn [Schema.profiles Schema.users] in Hins.
  destruct (existsb (fun p => Schema.p_id p =? Schema.au_id NEW) (Schema.profiles d));
    [discriminate|].
  destruct (negb (existsb (fun u => Schema.au_id u =? Schema.au_id NEW)
                          (Schema.users d ++ [NEW]))); [discriminate|].
  assert (Hd' : d' = Schema.mkDb (Schema.users d ++ [NEW])
                       (Schema.profiles d
                        ++ [Schema.mkProfile (Schema.au_id NEW)
                              (Schema.coalesce (Schema.au_meta_full_name NEW) "User") e])
                       (Schema.user_roles d
                        ++ [Schema.mkRole (Schema.au_id NEW) (Schema.role_for NEW)])
                       (Schema.complaints d)).
  { unfold Schema.role_for. rewrite Hemail.
    destruct (is_bootstrap (Some e)); unfold Schema.insert_user_role in Hins;
      cbn [Schema.profiles Schema.users Schema.user_roles Schema.complaints] in Hins;
      repeat match type of Hins with
             | (if ?c then _ else _) = _ => destruct c; [discriminate|]
             end;
      now injection Hins as <-. }
  subst d'. cbn [Schema.users Schema.complaints].
  split; [|split; reflexivity].
  unfold Schema.trigger_shaped.
  cbn [Schema.users Schema.profiles Schema.user_roles].
  rewrite !map_app. cbn [map Schema.p_id Schema.p_email]. rewrite Hp, He, Hr, Hemail.
  repeat split; try reflexivity.
  apply existsb_id_not_in in Hu.
  apply NoDup_app; [exact Hnd|repeat constructor; intros []|].
  intros x Hx [Hx'|[]]. subst x. contradiction.
Qed.

Lemma sign_ups_shaped (news : list Schema.auth_user) :
  forall d, Schema.trigger_shaped d -> Schema.trigger_shaped (Schema.sign_ups news d).
Proof.
  induction news as [|NEW news IH]; intros d Hd; [exact Hd|].
  cbn [Schema.sign_ups fold_left].
  destruct (Schema.insert_auth_user NEW d) as [d'|] eqn:Hins.
  - apply IH. exact (proj1 (insert_auth_user_shaped NEW d d' Hd Hins)).
  - apply IH, Hd.
Qed.

Lemma empty_db_shaped : Schema.trigger_shaped Schema.empty_db.
Proof. repeat split; constructor. Qed.

Lemma count_occ_map_once {A} (f : A -> uuid) (l : list A) (x : A) :
  NoDup (map f l) -> In x l -> count_occ string_dec (map f l) (f x) = 1.
Proof.
  intros Hnd Hin. apply NoDup_count_occ'; [exact Hnd|now apply in_map].
Qed.

Lemma roles_of_users_nodup (us : list Schema.auth_user) :
  NoDup (map Schema.au_id us) ->
  NoDup (map (fun u => Schema.mkRole (Schema.au_id u) (Schema.role_for u)) us).
Proof.
  induction us as [|u us IH]; intros Hnd; [constructor|].
  cbn [map] in *. inversion Hnd as [|x l Hnotin Hnd']; subst.
  constructor; [|now apply IH].
  intros Hin. apply Hnotin. apply in_map_iff in Hin. destruct Hin as [v [Hv Hin]].
  apply in_map_iff. exists v. split; [congruence|exact Hin].
Qed.

Lemma existsb_keyed {A} (f : A -> uuid) (g : A -> bool) (l : list A) (x : A) :
  NoDup (map f l) -> In x l ->
  existsb (fun y => (f y =? f x) && g y) l = g x.
Proof.
  intros Hnd Hin. induction l as [|a l IH]; [contradiction|].
  cbn [map] in Hnd. inversion Hnd as [|k ks Hnotin Hnd']; subst.
  cbn [existsb]. destruct Hin as [->|Hin].
  - rewrite String.eqb_refl. cbn [andb].
    destruct (g x); [reflexivity|]. cbn [orb].
    apply existsb_none. intros y Hy.
    destruct (f y =? f x) eqn:E; [|reflexivity].
    apply String.eqb_eq in E. exfalso. apply Hnotin. rewrite <- E. now apply in_map.
  - destruct (f a =? f x) eqn:E.
    + apply String.eqb_eq in E. exfalso. apply Hnotin. rewrite E. now apply in_map.
    + cbn [andb orb]. now apply IH.
Qed.

Lemma insert_auth_user_succeeds (NEW : Schema.auth_user) (d : Schema.db) (e : string) :
  Schema.trigger_shaped d ->
  ~ In (Schema.au_id NEW) (map Schema.au_id (Schema.users d)) ->
  Schema.au_email NEW = Some e ->
  Schema.insert_auth_user NEW d
  = Some (Schema.mkDb (Schema.users d ++ [NEW])
            (Schema.profiles d
             ++ [Schema.mkProfile (Schema.au_id NEW)
                   (Schema.coalesce (Schema.au_meta_full_name NEW) "User") e])
            (Schema.user_roles d ++ [Schema.mkRole (Schema.au_id NEW) (Schema.role_for NEW)])
            (Schema.complaints d)).
Proof.
  intros (Hnd & Hp & He & Hr) Hfresh Hemail.
  unfold Schema.insert_auth_user.
  rewrite (proj2 (existsb_id_not_in Schema.au_id (Schema.au_id NEW) (Schema.users d)) Hfresh).
  unfold Schema.handle_new_user, Schema.insert_profile. rewrite Hemail.
  cbn [Schema.profiles Schema.users].
  assert (Hnp : existsb (fun p => Schema.p_id p =? Schema.au_id NEW) (Schema.profiles d)
                = false).
  { apply existsb_id_not_in. now rewrite Hp. }
  assert (Hnew : existsb (fun u => Schema.au_id u =? Schema.au_id NEW)
                         (Schema.users d ++ [NEW]) = true).
  { apply existsb_last, String.eqb_refl. }
  rewrite Hnp, Hnew. cbn [negb].
  assert (Hnr : forall role,
             existsb (fun r => (Schema.ur_user_id r =? Schema.au_id NEW)
                               && app_role_eqb (Schema.ur_role r) role)
                     (Schema.user_roles d) = false).
  { intros role. apply existsb_none. intros r Hin. rewrite Hr in Hin.
    apply in_map_iff in Hin. destruct Hin as [u [<- Hin]]. cbn.
    apply andb_false_iff. left. apply String.eqb_neq. intros Heq.
    apply Hfresh. rewrite <- Heq. now apply in_map. }
  unfold Schema.role_for. rewrite Hemail.
  destruct (is_bootstrap (Some e)); unfold Schema.insert_user_role;
    cbn [Schema.profiles Schema.users Schema.user_roles Schema.complaints];
    rewrite Hnr, Hnew; reflexivity.
Qed.

(** X1: starting from a database of the trigger's shape (the empty one is),
    any sequence of sign-ups, failed ones included, leaves every identity
    with exactly one profile row and exactly one role row; that row is the
    role its email earns, and [UNIQUE(user_id, role)] holds. *)
Theorem sign_ups_one_profile_one_role :
  forall (news : list Schema.auth_user) (d : Schema.db) (u : Schema.auth_user),
    Schema.trigger_shaped d ->
    In u (Schema.users (Schema.sign_ups news d)) ->
    let d' := Schema.sign_ups news d in
    count_occ string_dec (map Schema.p_id (Schema.profiles d')) (Schema.au_id u) = 1
    /\ count_occ string_dec (map Schema.ur_user_id (Schema.user_roles d')) (Schema.au_id u) = 1
    /\ In (Schema.mkRole (Schema.au_id u) (Schema.role_for u)) (Schema.user_roles d')
    /\ NoDup (Schema.user_roles d')
    /\ Schema.trigger_shaped d'.
Proof.
  intros news d u Hd Hin d'.
  pose proof (sign_ups_shaped news d Hd) as Hs. fold d' in Hs, Hin.
  destruct Hs as (Hnd & Hp & He & Hr).
  refine (conj _ (conj _ (conj _ (conj _ (conj Hnd (conj Hp (conj He Hr))))))).
  - rewrite Hp. now apply count_occ_map_once.
  - rewrite Hr, map_map. cbn [Schema.ur_user_id]. now apply count_occ_map_once.
  - rewrite Hr. now apply (in_map (fun v => Schema.mkRole (Schema.au_id v) (Schema.role_for v))).
  - rewrite Hr. now apply roles_of_users_nodup.
Qed.

Lemma sign_ups_one_profile_one_role_witness :
  Schema.user_roles
    (Schema.sign_ups [Schema.mkUser "s1" (Some "asha@example.com") (Some "Asha");
                      Schema.mkUser "s1" (Some "other@example.com") None;
                      Schema.mkUser "a1" (Some "admin@brototype.com") None]
                     Schema.empty_db)
  = [Schema.mkRole "s1" student; Schema.mkRole "a1" admin]
  /\ In (Schema.mkRole "a1" admin)
        (Schema.user_roles
           (Schema.sign_ups [Schema.mkUser "s1" (Some "asha@example.com") (Some "Asha");
                             Schema.mkUser "s1" (Some "other@example.com") None;
                             Schema.mkUser "a1" (Some "admin@brototype.com") None]
                            Schema.empty_db)).
Proof.
  split; [reflexivity|].
  pose proof (sign_ups_one_profile_one_role
                [Schema.mkUser "s1" (Some "asha@example.com") (Some "Asha");
                 Schema.mkUser "s1" (Some "other@example.com") None;
                 Schema.mkUser "a1" (Some "admin@brototype.com") None]
                Schema.empty_db
                (Schema.mkUser "a1" (Some "admin@brototype.com") None)
                empty_db_shaped
                (or_intror (or_introl eq_refl))) as H.
  destruct H as (_ & _ & Hin & _). exact Hin.
Defined.



(** X3: on a database of the trigger's shape the role table alone already
    decides as the email does: for every identity, [has_role(id, admin)] is
    true exactly when its email is the bootstrap address, and
    [checkAdminRole] (asking as that identity) gives the same [isAdmin]
    whether it is handed the email or not. *)
Theorem role_table_agrees_with_email :
  forall (d : Schema.db) (u : Schema.auth_user) (st : AuthContext.state),
    Schema.trigger_shaped d ->
    In u (Schema.users d) ->
    let query := AuthContext.select_admin_role d (Some (Schema.au_id u)) (Schema.au_id u) in
    Schema.has_role d (Some (Schema.au_id u)) admin = is_bootstrap (Schema.au_email u)
    /\ AuthContext.isAdmin
         (state_of (AuthContext.checkAdminRole (Schema.au_id u) (Schema.au_email u) query st))
       = is_bootstrap (Schema.au_email u)
    /\ AuthContext.isAdmin
         (state_of (AuthContext.checkAdminRole (Schema.au_id u) None query st))
       = is_bootstrap (Schema.au_email u).
Proof.
  intros d u st (Hnd & Hp & He & Hr) Hin query.
  assert (Hrole : Schema.has_role d (Some (Schema.au_id u)) admin
                  = is_bootstrap (Schema.au_email u)).
  { destruct d as [us ps rs cs]. cbn [Schema.users Schema.user_roles] in *. subst rs.
    rewrite has_role_shaped.
    rewrite (existsb_keyed Schema.au_id
               (fun v => app_role_eqb (Schema.role_for v) admin) us u Hnd Hin).
    unfold Schema.role_for. now destruct (is_bootstrap (Schema.au_email u)). }
  assert (Hq : query = if is_bootstrap (Schema.au_email u)
                       then Returned (Some (Schema.mkRole (Schema.au_id u) admin)) None
                       else Returned None None).
  { unfold query. rewrite select_admin_role_has_role.
    - now rewrite Hrole.
    - rewrite Hr. now apply roles_of_users_nodup. }
  split; [exact Hrole|]. rewrite Hq.
  unfold AuthContext.checkAdminRole.
  destruct (is_bootstrap (Schema.au_email u)) eqn:Hb; split; reflexivity.
Qed.

Lemma role_table_agrees_with_email_witness :
  Schema.has_role
    (Schema.sign_ups [Schema.mkUser "s1" (Some "asha@example.com") (Some "Asha");
                      Schema.mkUser "a1" (Some "admin@brototype.com") None]
                     Schema.empty_db)
    (Some "a1") admin = true.
Proof.
  apply (role_table_agrees_with_email
           (Schema.sign_ups [Schema.mkUser "s1" (Some "asha@example.com") (Some "Asha");
                             Schema.mkUser "a1" (Some "admin@brototype.com") None]
                            Schema.empty_db)
           (Schema.mkUser "a1" (Some "admin@brototype.com") None)
           (AuthContext.mkState None false true)
           (sign_ups_shaped _ _ empty_db_shaped)
           (or_intror (or_introl eq_refl))).
Defined.

(** ** Writes and reads under the policies on [complaints] *)

Lemma non_admin_update_policies (d : Schema.db) (caller : option uuid)
      (r : Schema.complaint) :
  Schema.has_role d caller admin = false ->
  Schema.rls_using Schema.complaints_policies Schema.UPDATE d caller r = Schema.own_pending caller r
  /\ Schema.rls_check Schema.complaints_policies Schema.UPDATE d caller r
     = Schema.own_pending caller r.
Proof.
  intros H.
  unfold Schema.rls_using, Schema.rls_check, Schema.complaints_policies,
    Schema.using_holds, Schema.check_holds, Schema.own_pending.
  cbn [existsb Schema.pol_for Schema.pol_using Schema.pol_with_check
       Schema.command_eqb andb orb].
  rewrite H. split; now rewrite !orb_false_r.
Qed.

Lemma non_admin_update_rows (d : Schema.db) (caller : option uuid) (id : uuid)
      (cols : complaint_update) (now : Z) (rows rows' : list Schema.complaint) :
  Schema.has_role d caller admin = false ->
  Schema.update_rows d caller id cols now rows = Some rows' ->
  rows' = map (fun r => if (Schema.c_id r =? id) && Schema.own_pending caller r
                        then Schema.update_updated_at_column now (Schema.set_columns cols r)
                        else r) rows
  /\ map Schema.c_status rows' = map Schema.c_status rows.
Proof.
  intros Hna. revert rows'.
  induction rows as [|r rows IH]; intros rows' Hup.
  - injection Hup as <-. split; reflexivity.
  - cbn [Schema.update_rows] in Hup.
    destruct (Schema.update_rows d caller id cols now rows) as [rest'|]; [|discriminate].
    destruct (IH rest' eq_refl) as [Hrest Hst].
    destruct (non_admin_update_policies d caller r Hna) as [Hu _].
    destruct (non_admin_update_policies d caller
                (Schema.update_updated_at_column now (Schema.set_columns cols r)) Hna)
      as [_ Hc].
    rewrite Hu, Hc in Hup. cbn [map].
    destruct ((Schema.c_id r =? id) && Schema.own_pending caller r) eqn:Htarget.
    + destruct (Schema.own_pending caller
                  (Schema.update_updated_at_column now (Schema.set_columns cols r)))
        eqn:Hnew; [|discriminate].
      injection Hup as <-. cbn [map]. split; [now rewrite <- Hrest|].
      rewrite Hst. f_equal.
      apply andb_true_iff in Htarget. destruct Htarget as [_ Hold].
      unfold Schema.own_pending in Hold, Hnew.
      apply andb_true_iff in Hold. apply andb_true_iff in Hnew.
      destruct Hold as [_ Hold]. destruct Hnew as [_ Hnew].
      apply complaint_status_eqb_eq in Hold. apply complaint_status_eqb_eq in Hnew.
      congruence.
    + injection Hup as <-. cbn [map]. split; [now rewrite <- Hrest|now rewrite Hst].
Qed.

(** X4: a caller without the admin role can never change a status.  When
    such a caller's update goes through, every row keeps its status, and
    the only rows written are the caller's own Pending rows with the given
    id.  An update that would move such a row away from Pending is refused
    as a whole: the UPDATE policy has no WITH CHECK, so its USING condition
    is also applied to the new row. *)
Theorem non_admin_update_keeps_status :
  forall (d d' : Schema.db) (caller : option uuid) (id : uuid)
         (cols : complaint_update) (now : Z),
    Schema.has_role d caller admin = false ->
    Schema.update_complaint caller id cols now d = Some d' ->
    map Schema.c_status (Schema.complaints d') = map Schema.c_status (Schema.complaints d)
    /\ Schema.complaints d'
       = map (fun r => if (Schema.c_id r =? id) && Schema.own_pending caller r
                       then Schema.update_updated_at_column now (Schema.set_columns cols r)
                       else r) (Schema.complaints d)
    /\ (forall r, In r (Schema.complaints d) ->
                  Schema.c_id r = id -> Schema.own_pending caller r = true ->
                  upd_status cols = Pending).
Proof.
  intros d d' caller id cols now Hna Hup.
  unfold Schema.update_complaint in Hup.
  destruct (Schema.update_rows d caller id cols now (Schema.complaints d))
    as [rows'|] eqn:Hrows; [|discriminate].
  injection Hup as <-. cbn [Schema.complaints].
  destruct (non_admin_update_rows d caller id cols now _ rows' Hna Hrows) as [Hmap Hst].
  refine (conj Hst (conj Hmap _)).
  intros r Hin Hid Hown.
  assert (Hin' : In (Schema.c_status r) (map Schema.c_status (Schema.complaints d)))
    by now apply in_map.
  assert (Hr' : In (Schema.update_updated_at_column now (Schema.set_columns cols r)) rows').
  { rewrite Hmap. apply in_map_iff. exists r. split; [|exact Hin].
    apply String.eqb_eq in Hid. now rewrite Hid, Hown. }
  (* the written row has the status of [cols], and statuses did not change *)
  clear Hin'. revert Hr' Hst. rewrite Hmap. clear Hmap Hrows rows'.
  induction (Schema.complaints d) as [|x xs IH]; [contradiction|].
  cbn [map]. intros Hr' Hst. injection Hst as Hhd Htl.
  destruct Hin as [->|Hin].
  - apply String.eqb_eq in Hid. rewrite Hid, Hown in Hhd. cbn in Hhd.
    unfold Schema.own_pending in Hown. apply andb_true_iff in Hown.
    destruct Hown as [_ Hp]. apply complaint_status_eqb_eq in Hp. congruence.
  - apply IH; try assumption.
    apply in_map_iff. exists r. split; [|exact Hin].
    apply String.eqb_eq in Hid. now rewrite Hid, Hown.
Qed.

Lemma non_admin_update_keeps_status_witness :
  Schema.update_complaint (Some "s1") "c1" (mkUpdate Pending (Some "please hurry")) 30
    (Schema.mkDb [] [] [Schema.mkRole "s1" student]
       [Schema.mkComplaint "c1" "s1" "Wifi down" Technical "The lab wifi is down" None
                           Pending None 10 10;
        Schema.mkComplaint "c2" "s1" "Projector" Facility "The projector is broken" None
                           Resolved (Some "Fixed") 5 20])
  = Some (Schema.mkDb [] [] [Schema.mkRole "s1" student]
            [Schema.mkComplaint "c1" "s1" "Wifi down" Technical "The lab wifi is down" None
                                Pending (Some "please hurry") 10 30;
             Schema.mkComplaint "c2" "s1" "Projector" Facility "The projector is broken"
                                None Resolved (Some "Fixed") 5 20])
  /\ map Schema.c_status
         [Schema.mkComplaint "c1" "s1" "Wifi down" Technical "The lab wifi is down" None
                             Pending (Some "please hurry") 10 30;
          Schema.mkComplaint "c2" "s1" "Projector" Facility "The projector is broken"
                             None Resolved (Some "Fixed") 5 20]
     = [Pending; Resolved].
Proof.
  split; [reflexivity|].
  pose proof (non_admin_update_keeps_status
                (Schema.mkDb [] [] [Schema.mkRole "s1" student]
                   [Schema.mkComplaint "c1" "s1" "Wifi down" Technical
                      "The lab wifi is down" None Pending None 10 10;
                    Schema.mkComplaint "c2" "s1" "Projector" Facility
                      "The projector is broken" None Resolved (Some "Fixed") 5 20])
                _ (Some "s1") "c1" (mkUpdate Pending (Some "please hurry")) 30
                eq_refl eq_refl) as [H _].
  exact H.
Defined.

(** X5: whoever the caller is, an update that goes through leaves the
    table with the same rows in the same order as far as id, owner, title,
    category, description, attachment and creation time go, and leaves
    every row with another id exactly as it was. *)
Theorem update_complaint_fixed_columns :
  forall (d d' : Schema.db) (caller : option uuid) (id : uuid)
         (cols : complaint_update) (now : Z),
    Schema.update_complaint caller id cols now d = Some d' ->
    map Schema.fixed_columns (Schema.complaints d')
    = map Schema.fixed_columns (Schema.complaints d)
    /\ filter (fun r => negb (Schema.c_id r =? id)) (Schema.complaints d')
       = filter (fun r => negb (Schema.c_id r =? id)) (Schema.complaints d)
    /\ Schema.users d' = Schema.users d
    /\ Schema.profiles d' = Schema.profiles d
    /\ Schema.user_roles d' = Schema.user_roles d.
Proof.
  intros d d' caller id cols now Hup.
  unfold Schema.update_complaint in Hup.
  destruct (Schema.update_rows d caller id cols now (Schema.complaints d))
    as [rows'|] eqn:Hrows; [|discriminate].
  injection Hup as <-. cbn [Schema.complaints Schema.users Schema.profiles Schema.user_roles].
  refine (conj _ (conj _ (conj eq_refl (conj eq_refl eq_refl)))).
  - revert rows' Hrows. induction (Schema.complaints d) as [|r rows IH]; intros rows' Hrows.
    + now injection Hrows as <-.
    + cbn [Schema.update_rows] in Hrows.
      destruct (Schema.update_rows d caller id cols now rows) as [rest'|]; [|discriminate].
      specialize (IH rest' eq_refl).
      destruct ((Schema.c_id r =? id)
                && Schema.rls_using Schema.complaints_policies Schema.UPDATE d caller r).
      * destruct (Schema.rls_check _ _ _ _ _); [|discriminate].
        injection Hrows as <-. cbn [map]. now rewrite IH.
      * injection Hrows as <-. cbn [map]. now rewrite IH.
  - revert rows' Hrows. induction (Schema.complaints d) as [|r rows IH]; intros rows' Hrows.
    + now injection Hrows as <-.
    + cbn [Schema.update_rows] in Hrows.
      destruct (Schema.update_rows d caller id cols now rows) as [rest'|]; [|discriminate].
      specialize (IH rest' eq_refl).
      destruct (Schema.c_id r =? id) eqn:Hid; cbn [andb] in Hrows.
      * destruct (Schema.rls_using _ _ _ _ _).
        -- destruct (Schema.rls_check _ _ _ _ _); [|discriminate].
           injection Hrows as <-. cbn [filter Schema.update_updated_at_column
                                       Schema.set_columns Schema.c_id].
           now rewrite Hid.
        -- injection Hrows as <-. cbn [filter]. now rewrite Hid.
      * injection Hrows as <-. cbn [filter]. rewrite Hid. cbn [negb]. now rewrite IH.
Qed.

Lemma update_complaint_fixed_columns_witness :
  map Schema.fixed_columns
      [Schema.mkComplaint "c1" "s1" "Wifi down" Technical "The lab wifi is down" None
                          Under_Review (Some "Investigating") 10 40]
  = map Schema.fixed_columns
        [Schema.mkComplaint "c1" "s1" "Wifi down" Technical "The lab wifi is down" None
                            Pending None 10 10].
Proof.
  pose proof (update_complaint_fixed_columns
                (Schema.mkDb [] [] [Schema.mkRole "a1" admin]
                   [Schema.mkComplaint "c1" "s1" "Wifi down" Technical
                      "The lab wifi is down" None Pending None 10 10])
                _ (Some "a1") "c1" (mkUpdate Under_Review (Some "Investigating")) 40
                eq_refl) as [H _].
  exact H.
Defined.

(** X6: what a SELECT on [complaints] shows: to a caller with the admin
    role every row, to any other caller exactly the rows it owns, and to a
    request without a session nothing. *)
Theorem visible_complaints_own_or_admin :
  forall (d : Schema.db) (caller : option uuid),
    Schema.visible_complaints d caller
    = (if Schema.has_role d caller admin then Schema.complaints d
       else filter (fun r => Schema.uid_is caller (Schema.c_user_id r))
                   (Schema.complaints d))
    /\ Schema.visible_complaints d None = []
    /\ (forall r, In r (Schema.select_all_complaints d caller)
                  <-> In r (Schema.visible_complaints d caller)).
Proof.
  intros d caller.
  assert (Hvis : forall c,
             Schema.visible_complaints d c
             = filter (fun r => Schema.uid_is c (Schema.c_user_id r)
                                || Schema.has_role d c admin) (Schema.complaints d)).
  { intros c. unfold Schema.visible_complaints. apply filter_pointwise. intros r.
    unfold Schema.rls_using, Schema.complaints_policies, Schema.using_holds.
    cbn [existsb Schema.pol_for Schema.pol_using Schema.command_eqb andb orb].
    now rewrite orb_false_r. }
  refine (conj _ (conj _ _)).
  - rewrite Hvis. destruct (Schema.has_role d caller admin).
    + apply filter_true. intros r. apply orb_true_r.
    + apply filter_pointwise. intros r. apply orb_false_r.
  - rewrite Hvis. cbn [Schema.uid_is].
    assert (Hn : Schema.has_role d None admin = false).
    { unfold Schema.has_role. now apply existsb_none. }
    rewrite Hn. clear. induction (Schema.complaints d) as [|r rows IH]; [reflexivity|exact IH].
  - intros r. unfold Schema.select_all_complaints, Schema.order_by_created_at_desc.
    induction (Schema.visible_complaints d caller) as [|x xs IH]; [reflexivity|].
    cbn [fold_right].
    assert (Hins : forall l, In r (Schema.insert_desc x l) <-> r = x \/ In r l).
    { induction l as [|y ys IHl]; cbn [Schema.insert_desc].
      - cbn. intuition.
      - destruct (Schema.c_created_at y <? Schema.c_created_at x)%Z; cbn [In].
        + intuition.
        + rewrite IHl. intuition. }
    rewrite Hins, IH. cbn [In]. intuition.
Qed.



(** ** The storage policies and the upload path *)

Lemma append_empty (s : string) : (s ++ "")%string = s.
Proof. induction s as [|c s IH]; cbn; [reflexivity|now rewrite IH]. Qed.

Lemma append_snoc (acc a : string) (c : ascii) :
  ((acc ++ String c "") ++ a)%string = (acc ++ String c a)%string.
Proof. induction acc as [|x acc IH]; cbn; [reflexivity|now rewrite IH]. Qed.

Lemma segments_prefix (a rest acc : string) :
  Schema.has_slash a = false ->
  Schema.segments acc (a ++ String "/" rest)
  = (acc ++ a)%string :: Schema.segments "" rest.
Proof.
  revert acc. induction a as [|c a IH]; intros acc Hs.
  - cbn. now rewrite append_empty.
  - unfold Schema.has_slash in Hs. cbn in Hs. apply orb_false_iff in Hs.
    destruct Hs as [Hc Hs]. cbn [String.append Schema.segments]. rewrite Hc.
    rewrite IH by exact Hs. now rewrite append_snoc.
Qed.

Lemma segments_not_nil (acc s : string) : Schema.segments acc s <> [].
Proof.
  revert acc. induction s as [|c s IH]; intros acc; cbn; [discriminate|].
  destruct (Ascii.eqb c "/"); [discriminate|apply IH].
Qed.

Lemma in_own_folder_path (caller : option uuid) (a rest : string) :
  Schema.has_slash a = false ->
  Schema.in_own_folder caller (Schema.mkObject "complaint-files" (a ++ String "/" rest))
  = Schema.uid_is caller a.
Proof.
  intros Hs. unfold Schema.in_own_folder, Schema.foldername. cbn [Schema.name].
  rewrite (segments_prefix a rest "" Hs). cbn [String.append].
  destruct (Schema.segments "" rest) as [|x xs] eqn:E;
    [now apply segments_not_nil in E|].
  reflexivity.
Qed.

Lemma storage_policies_on (d : Schema.db) (caller : option uuid)
      (o : Schema.storage_object) :
  Schema.bucket_id o = "complaint-files" ->
  Schema.rls_check Schema.storage_policies Schema.INSERT d caller o
  = Schema.in_own_folder caller o
  /\ Schema.rls_using Schema.storage_policies Schema.DELETE d caller o
     = Schema.in_own_folder caller o
  /\ Schema.rls_using Schema.storage_policies Schema.SELECT d caller o
     = Schema.in_own_folder caller o || Schema.has_role d caller admin.
Proof.
  intros Hb.
  unfold Schema.rls_check, Schema.rls_using, Schema.storage_policies,
    Schema.check_holds, Schema.using_holds.
  cbn [existsb Schema.pol_for Schema.pol_using Schema.pol_with_check
       Schema.command_eqb andb orb].
  rewrite Hb. cbn [String.eqb Ascii.eqb Bool.eqb andb].
  assert (Hrole : Schema.has_role d None admin = false).
  { unfold Schema.has_role. now apply existsb_none. }
  assert (Hfold : Schema.in_own_folder None o = false).
  { unfold Schema.in_own_folder. now destruct (Schema.foldername (Schema.name o)). }
  destruct caller as [c|]; cbn [Schema.authenticated andb orb].
  - repeat split; now rewrite ?orb_false_r.
  - rewrite Hrole, Hfold. repeat split.
Qed.

(** X8: the path [uploadFile] builds starts with the uploader's id as its
    first folder (ids have no slash), and every upload it issues goes to
    that path.  Under the storage policies such an object can be inserted
    and deleted by the uploader only, and read by the uploader and by
    callers with the admin role; a request without a session gets
    nothing. *)
Theorem upload_path_in_own_folder :
  forall (d : Schema.db) (u : AuthContext.User) (now : N) (f : File)
         (caller : option uuid),
    Schema.has_slash (AuthContext.id u) = false ->
    let o := Schema.mkObject "complaint-files" (StudentDashboard.upload_path u now f) in
    Schema.rls_check Schema.storage_policies Schema.INSERT d caller o
    = Schema.uid_is caller (AuthContext.id u)
    /\ Schema.rls_using Schema.storage_policies Schema.DELETE d caller o
       = Schema.uid_is caller (AuthContext.id u)
    /\ Schema.rls_using Schema.storage_policies Schema.SELECT d caller o
       = Schema.uid_is caller (AuthContext.id u) || Schema.has_role d caller admin
    /\ (forall (b : StudentDashboard.backend) (s : StudentDashboard.state)
               (path : string) (g : File),
          StudentDashboard.user s = Some u ->
          In (Net (StorageUpload path g))
             (trace_of (StudentDashboard.uploadFile now b s)) ->
          StudentDashboard.file s = Some g
          /\ path = StudentDashboard.upload_path u now g).
Proof.
  intros d u now f caller Hs o.
  assert (Hfolder : Schema.in_own_folder caller o = Schema.uid_is caller (AuthContext.id u)).
  { unfold o, StudentDashboard.upload_path. cbn [String.append].
    now apply in_own_folder_path. }
  destruct (storage_policies_on d caller o eq_refl) as (Hi & Hd & Hsel).
  rewrite Hi, Hd, Hsel, Hfolder.
  refine (conj eq_refl (conj eq_refl (conj eq_refl _))).
  intros b s path g Hu Hin.
  destruct s as [us cs ld sb op ti ca de fi up]. cbn in Hu. subst us.
  destruct b as [ur pu ir lr].
  unfold StudentDashboard.uploadFile, bind, get, finally, try_catch, emit, throw, ret,
    StudentDashboard.setUploading, modify, trace_of in Hin.
  cbn [StudentDashboard.file StudentDashboard.user StudentDashboard.upload_response
       StudentDashboard.public_url] in Hin.
  destruct fi as [f0|]; [|contradiction].
  destruct ur as [d0 [e0|]|e0]; cbn in Hin; trace_cases Hin;
    injection Hin as <- <-; split; reflexivity.
Qed.

Lemma upload_path_in_own_folder_witness :
  Schema.rls_check Schema.storage_policies Schema.INSERT Schema.empty_db (Some "s2")
    (Schema.mkObject "complaint-files"
       (StudentDashboard.upload_path (AuthContext.mkUser "s1" (Some "asha@example.com"))
          1700000000000 (mkFile "photo.png" 2048 "image/png")))
  = false.
Proof.
  destruct (upload_path_in_own_folder Schema.empty_db
              (AuthContext.mkUser "s1" (Some "asha@example.com")) 1700000000000
              (mkFile "photo.png" 2048 "image/png") (Some "s2") eq_refl) as [H _].
  rewrite H. reflexivity.
Defined.

(** ** The complaint form *)

Lemma parse_category_text (s : string) (c : complaint_category) :
  StudentDashboard.parse_category s = Some c <-> category_text c = s.
Proof.
  unfold StudentDashboard.parse_category. split.
  - intros H. apply find_some in H. destruct H as [_ H]. now apply String.eqb_eq in H.
  - intros <-. destruct c; reflexivity.
Qed.

Lemma complaintSchema_parse_cases (title category description : string) :
  let t := StudentDashboard.trim title in
  let d := StudentDashboard.trim description in
  let ok := negb (String.length t <? 5)%nat && negb (200 <? String.length t)%nat
            && negb (String.length d <? 20)%nat && negb (2000 <? String.length d)%nat in
  match StudentDashboard.complaintSchema_parse title category description with
  | inl v =>
      ok = true
      /\ StudentDashboard.parse_category category = Some (StudentDashboard.v_category v)
      /\ StudentDashboard.v_title v = t /\ StudentDashboard.v_description v = d
  | inr issues =>
      (ok = false \/ StudentDashboard.parse_category category = None)
      /\ issues <> []
      /\ ((String.length t <? 5)%nat = true ->
          hd_error issues
          = Some (mkIssue "title" too_small (Some "Title must be at least 5 characters")))
  end.
Proof.
  intros t d ok. unfold StudentDashboard.complaintSchema_parse, StudentDashboard.check_string.
  fold t d. unfold ok.
  destruct (String.length t <? 5)%nat, (200 <? String.length t)%nat,
    (String.length d <? 20)%nat, (2000 <? String.length d)%nat,
    (StudentDashboard.parse_category category) as [c|];
    cbn [app negb andb StudentDashboard.v_category StudentDashboard.v_title
         StudentDashboard.v_description hd_error];
    repeat split; try reflexivity; try discriminate;
    try (left; reflexivity); try (right; reflexivity).
Qed.

(** X9: the fields of a complaint are accepted exactly when the trimmed
    title has 5 to 200 characters, the trimmed description 20 to 2000, and
    the category is one of the five names; the accepted values are the
    trimmed title and description.  A refusal always carries an issue. *)
Theorem complaintSchema_parse_accepts_iff :
  forall (title category description : string) (v : StudentDashboard.validated),
    (StudentDashboard.complaintSchema_parse title category description = inl v
     <-> (StudentDashboard.v_title v = StudentDashboard.trim title
          /\ StudentDashboard.v_description v = StudentDashboard.trim description
          /\ category_text (StudentDashboard.v_category v) = category
          /\ (5 <= String.length (StudentDashboard.trim title) <= 200)%nat
          /\ (20 <= String.length (StudentDashboard.trim description) <= 2000)%nat))
    /\ StudentDashboard.complaintSchema_parse title category description <> inr [].
Proof.
  intros title category description v.
  pose proof (complaintSchema_parse_cases title category description) as H.
  cbv zeta in H. split.
  - split.
    + intros Hv. rewrite Hv in H. destruct H as (Hok & Hc & Ht & Hd).
      apply parse_category_text in Hc.
      repeat (apply andb_true_iff in Hok; destruct Hok as [Hok ?]).
      repeat match goal with
             | Hlt : negb (_ <? _)%nat = true |- _ =>
                 apply negb_true_iff, Nat.ltb_ge in Hlt
             end.
      repeat split; assumption.
    + intros (Ht & Hd & Hc & Hlt & Hld).
      destruct (StudentDashboard.complaintSchema_parse title category description)
        as [w|issues].
      * destruct H as (_ & Hcw & Htw & Hdw).
        apply parse_category_text in Hc. rewrite Hc in Hcw. injection Hcw as Hcw.
        destruct v as [vt vc vd], w as [wt wc wd]. cbn in *. congruence.
      * exfalso. destruct H as ([Hok|Hnone] & _).
        -- destruct Hlt as [Hl1 Hl2], Hld as [Hl3 Hl4].
           apply Nat.ltb_ge in Hl1, Hl2, Hl3, Hl4.
           rewrite Hl1, Hl2, Hl3, Hl4 in Hok. discriminate Hok.
        -- apply parse_category_text in Hc. congruence.
  - intros Hnil. rewrite Hnil in H. destruct H as (_ & Hne & _). now apply Hne.
Qed.

Ltac submit_unfold :=
  unfold StudentDashboard.handleSubmit, StudentDashboard.uploadFile,
    StudentDashboard.insertComplaint, StudentDashboard.fetchComplaints,
    StudentDashboard.setSubmitting, StudentDashboard.setUploading,
    StudentDashboard.setTitle, StudentDashboard.setCategory,
    StudentDashboard.setDescription, StudentDashboard.setFile,
    StudentDashboard.setOpen, StudentDashboard.setComplaints,
    StudentDashboard.setLoading,
    bind, ret, emit, modify, get, throw, detached, try_catch, finally;
  cbn [StudentDashboard.user StudentDashboard.file StudentDashboard.title
       StudentDashboard.category StudentDashboard.description
       StudentDashboard.complaints StudentDashboard.loading
       StudentDashboard.submitting StudentDashboard.open StudentDashboard.uploading
       StudentDashboard.upload_response StudentDashboard.insert_response
       StudentDashboard.list_response StudentDashboard.public_url].

(** X10: when the fields do not validate, [handleSubmit] sends nothing at
    all, whatever file the form holds: it shows the first issue's message
    and leaves the form as it was, with [submitting] off. *)
Theorem handleSubmit_invalid_sends_nothing :
  forall (now : N) (b : StudentDashboard.backend) (s : StudentDashboard.state)
         (issues : list zod_issue),
    StudentDashboard.complaintSchema_parse (StudentDashboard.title s)
      (StudentDashboard.category s) (StudentDashboard.description s) = inr issues ->
    exists i rest,
      issues = i :: rest
      /\ StudentDashboard.handleSubmit now b s
         = (Normal tt,
            StudentDashboard.mkState (StudentDashboard.user s)
              (StudentDashboard.complaints s) (StudentDashboard.loading s) false
              (StudentDashboard.open s) (StudentDashboard.title s)
              (StudentDashboard.category s) (StudentDashboard.description s)
              (StudentDashboard.file s) (StudentDashboard.uploading s),
            [ToastError (StudentDashboard.issue_text i)]).
Proof.
  intros now b s issues Hparse.
  destruct issues as [|i rest].
  - exfalso.
    pose proof (complaintSchema_parse_cases (StudentDashboard.title s)
                  (StudentDashboard.category s) (StudentDashboard.description s)) as H.
    cbv zeta in H. rewrite Hparse in H. destruct H as (_ & Hne & _). now apply Hne.
  - exists i, rest. split; [reflexivity|].
    destruct s as [u cs ld sb op ti ca de fi up].
    cbn [StudentDashboard.title StudentDashboard.category StudentDashboard.description]
      in Hparse.
    submit_unfold. rewrite Hparse. reflexivity.
Qed.

Lemma handleSubmit_invalid_sends_nothing_witness :
  StudentDashboard.handleSubmit 1700000000000 StudentDashboard.accepting_backend
    (StudentDashboard.mkState (Some (AuthContext.mkUser "s1" (Some "asha@example.com")))
       [] false false true "Wifi" "Technical"
       "The lab wifi has been down since Monday morning"
       (Some (mkFile "photo.png" 2048 "image/png")) false)
  = (Normal tt,
     StudentDashboard.mkState (Some (AuthContext.mkUser "s1" (Some "asha@example.com")))
       [] false false true "Wifi" "Technical"
       "The lab wifi has been down since Monday morning"
       (Some (mkFile "photo.png" 2048 "image/png")) false,
     [ToastError (Text "Title must be at least 5 characters")]).
Proof.
  destruct (handleSubmit_invalid_sends_nothing 1700000000000
              StudentDashboard.accepting_backend
              (StudentDashboard.mkState
                 (Some (AuthContext.mkUser "s1" (Some "asha@example.com")))
                 [] false false true "Wifi" "Technical"
                 "The lab wifi has been down since Monday morning"
                 (Some (mkFile "photo.png" 2048 "image/png")) false)
              [mkIssue "title" too_small (Some "Title must be at least 5 characters")]
              eq_refl) as (i & rest & Hi & Hrun).
  injection Hi as <- _. exact Hrun.
Defined.

(** [uploadFile] when the form holds a file and a student is signed in. *)
Lemma uploadFile_cases (now : N) (b : StudentDashboard.backend)
      (s : StudentDashboard.state) (f : File) (u : AuthContext.User) :
  StudentDashboard.file s = Some f ->
  StudentDashboard.user s = Some u ->
  let path := StudentDashboard.upload_path u now f in
  let s' := StudentDashboard.mkState (StudentDashboard.user s)
              (StudentDashboard.complaints s) (StudentDashboard.loading s)
              (StudentDashboard.submitting s) (StudentDashboard.open s)
              (StudentDashboard.title s) (StudentDashboard.category s)
              (StudentDashboard.description s) (StudentDashboard.file s) false in
  StudentDashboard.uploadFile now b s
  = match StudentDashboard.upload_response b with
    | Returned _ None =>
        (Normal (Some (StudentDashboard.public_url b path)), s', [Net (StorageUpload path f)])
    | Returned _ (Some e) | Rejected e =>
        (Normal None, s',
         [Net (StorageUpload path f); ConsoleError ["File upload error:"; e];
          ToastError (Text "Failed to upload file")])
    end.
Proof.
  intros Hf Hu path s'. subst path s'.
  destruct s as [us cs ld sb op ti ca de fi up].
  cbn [StudentDashboard.file StudentDashboard.user] in Hf, Hu. subst fi us.
  unfold StudentDashboard.uploadFile, StudentDashboard.upload_path,
    StudentDashboard.setUploading, bind, get, finally, try_catch, emit, throw, ret, modify.
  cbn [StudentDashboard.file StudentDashboard.user].
  destruct (StudentDashboard.upload_response b) as [d0 [e0|]|e0]; reflexivity.
Qed.

Lemma fetchComplaints_no_insert (b : StudentDashboard.backend)
      (s : StudentDashboard.state) :
  filter is_insert (trace_of (StudentDashboard.fetchComplaints b s)) = [].
Proof.
  unfold StudentDashboard.fetchComplaints, bind, get.
  destruct (StudentDashboard.user s) as [u|]; [|reflexivity].
  destruct (StudentDashboard.list_response b) as [[l|] [e|]|e]; reflexivity.
Qed.

(** The trace of [insertComplaint] for a signed-in student: the insert
    comes first and is the only one. *)
Lemma insertComplaint_trace (b : StudentDashboard.backend)
      (s0 s : StudentDashboard.state) (v : StudentDashboard.validated)
      (fileUrl : option string) (u : AuthContext.User) :
  StudentDashboard.user s0 = Some u ->
  filter is_insert (trace_of (StudentDashboard.insertComplaint b s0 v fileUrl s))
  = [Net (InsertComplaint
            (mkInsert (AuthContext.id u) (StudentDashboard.v_title v)
                      (StudentDashboard.v_category v) (StudentDashboard.v_description v)
                      fileUrl))].
Proof.
  intros Hu. unfold StudentDashboard.insertComplaint. rewrite Hu.
  unfold bind, emit, throw.
  destruct (StudentDashboard.insert_response b) as [d1 [e1|]|e1]; try reflexivity.
  unfold detached, StudentDashboard.setTitle, StudentDashboard.setCategory,
    StudentDashboard.setDescription, StudentDashboard.setFile, StudentDashboard.setOpen,
    modify.
  match goal with
  | |- context [StudentDashboard.fetchComplaints b ?st] =>
      pose proof (fetchComplaints_no_insert b st) as Hf;
      destruct (StudentDashboard.fetchComplaints b st) as [[c s2] t2]
  end.
  cbn in Hf |- *. rewrite Hf. reflexivity.
Qed.

Lemma insertComplaint_no_user (b : StudentDashboard.backend)
      (s0 s : StudentDashboard.state) (v : StudentDashboard.validated)
      (fileUrl : option string) :
  StudentDashboard.user s0 = None ->
  trace_of (StudentDashboard.insertComplaint b s0 v fileUrl s) = [].
Proof. intros Hu. unfold StudentDashboard.insertComplaint. now rewrite Hu. Qed.

(** The inserts in the trace of [handleSubmit], by the cases of its
    reading of the form. *)
Lemma handleSubmit_inserts (now : N) (b : StudentDashboard.backend)
      (s : StudentDashboard.state) :
  filter is_insert (trace_of (StudentDashboard.handleSubmit now b s))
  = match StudentDashboard.complaintSchema_parse (StudentDashboard.title s)
            (StudentDashboard.category s) (StudentDashboard.description s),
          StudentDashboard.user s with
    | inl v, Some u =>
        let row url := Net (InsertComplaint
                              (mkInsert (AuthContext.id u) (StudentDashboard.v_title v)
                                 (StudentDashboard.v_category v)
                                 (StudentDashboard.v_description v) url)) in
        match StudentDashboard.file s with
        | None => [row None]
        | Some f =>
            match StudentDashboard.upload_response b with
            | Returned _ None =>
                let url := StudentDashboard.public_url b
                             (StudentDashboard.upload_path u now f) in
                if truthy url then [row (Some url)] else []
            | _ => []
            end
        end
    | _, _ => []
    end.
Proof.
  destruct s as [u cs ld sb op ti ca de fi up].
  cbn [StudentDashboard.title StudentDashboard.category StudentDashboard.description
       StudentDashboard.user StudentDashboard.file].
  unfold StudentDashboard.handleSubmit, StudentDashboard.setSubmitting,
    bind, get, finally, try_catch, modify, throw, emit.
  cbn [StudentDashboard.title StudentDashboard.category StudentDashboard.description
       StudentDashboard.user StudentDashboard.file].
  destruct (StudentDashboard.complaintSchema_parse ti ca de) as [v|[|i issues]];
    [|reflexivity|reflexivity].
  destruct fi as [f|].
  - destruct u as [usr|].
    + match goal with
      | |- context [StudentDashboard.uploadFile now b ?st] =>
          rewrite (uploadFile_cases now b st f usr eq_refl eq_refl)
      end.
      cbn [StudentDashboard.user StudentDashboard.complaints StudentDashboard.loading
           StudentDashboard.submitting StudentDashboard.open StudentDashboard.title
           StudentDashboard.category StudentDashboard.description StudentDashboard.file].
      destruct (StudentDashboard.upload_response b) as [d0 [e0|]|e0]; try reflexivity.
      destruct (truthy (StudentDashboard.public_url b
                          (StudentDashboard.upload_path usr now f))); [|reflexivity].
      match goal with
      | |- context [StudentDashboard.insertComplaint b ?s0 v ?url ?st] =>
          pose proof (insertComplaint_trace b s0 st v url usr eq_refl) as Hi;
          destruct (StudentDashboard.insertComplaint b s0 v url st) as [[[a|e] s2] t2]
      end; cbn in Hi |- *.
      * now rewrite app_nil_r.
      * destruct e as [[|i0 iss]|m|m]; cbn; now rewrite ?filter_app, Hi.
    + unfold StudentDashboard.uploadFile, bind, get. reflexivity.
  - destruct u as [usr|].
    + match goal with
      | |- context [StudentDashboard.insertComplaint b ?s0 v ?url ?st] =>
          pose proof (insertComplaint_trace b s0 st v url usr eq_refl) as Hi;
          destruct (StudentDashboard.insertComplaint b s0 v url st) as [[[a|e] s2] t2]
      end; cbn in Hi |- *.
      * now rewrite app_nil_r.
      * destruct e as [[|i0 iss]|m|m]; cbn; now rewrite ?filter_app, Hi.
    + reflexivity.
Qed.

(** X11: every Complaint insert that [handleSubmit] issues is for the
    signed-in user and carries the validated (trimmed) title and
    description and the parsed category; its attachment is null when the
    form holds no file and otherwise the public URL of the path just
    uploaded, the upload having succeeded.  There is never more than that
    one insert. *)
Theorem handleSubmit_insert_is_validated :
  forall (now : N) (b : StudentDashboard.backend) (s : StudentDashboard.state)
         (row : complaint_insert),
    In (Net (InsertComplaint row)) (trace_of (StudentDashboard.handleSubmit now b s)) ->
    exists (u : AuthContext.User) (v : StudentDashboard.validated),
      StudentDashboard.user s = Some u
      /\ StudentDashboard.complaintSchema_parse (StudentDashboard.title s)
           (StudentDashboard.category s) (StudentDashboard.description s) = inl v
      /\ row = mkInsert (AuthContext.id u) (StudentDashboard.v_title v)
                 (StudentDashboard.v_category v) (StudentDashboard.v_description v)
                 (ins_file_url row)
      /\ match StudentDashboard.file s with
         | None => ins_file_url row = None
         | Some f =>
             ins_file_url row
             = Some (StudentDashboard.public_url b (StudentDashboard.upload_path u now f))
             /\ exists data, StudentDashboard.upload_response b = Returned data None
         end
      /\ filter is_insert (trace_of (StudentDashboard.handleSubmit now b s))
         = [Net (InsertComplaint row)].
Proof.
  intros now b s row Hin.
  assert (Hf : In (Net (InsertComplaint row))
                  (filter is_insert (trace_of (StudentDashboard.handleSubmit now b s)))).
  { apply filter_In. split; [exact Hin|reflexivity]. }
  rewrite handleSubmit_inserts in Hf |- *.
  destruct (StudentDashboard.complaintSchema_parse _ _ _) as [v|issues];
    [|contradiction].
  destruct (StudentDashboard.user s) as [u|]; [|contradiction].
  exists u, v. cbv zeta in Hf |- *.
  destruct (StudentDashboard.file s) as [f|].
  - destruct (StudentDashboard.upload_response b) as [d0 [e0|]|e0]; try contradiction.
    destruct (truthy _); [|contradiction].
    destruct Hf as [Hf|[]]. injection Hf as <-. cbn.
    repeat split; try reflexivity. now exists d0.
  - destruct Hf as [Hf|[]]. injection Hf as <-. cbn. repeat split; reflexivity.
Qed.

Lemma handleSubmit_insert_is_validated_witness :
  exists u v,
    Some (AuthContext.mkUser "s1" (Some "asha@example.com")) = Some u
    /\ StudentDashboard.complaintSchema_parse "  Wifi down " "Technical"
         "The lab wifi has been down since Monday morning" = inl v
    /\ StudentDashboard.v_title v = "Wifi down".
Proof.
  pose (s := StudentDashboard.mkState
               (Some (AuthContext.mkUser "s1" (Some "asha@example.com")))
               [] false false true "  Wifi down " "Technical"
               "The lab wifi has been down since Monday morning" None false).
  assert (Hin : In (Net (InsertComplaint
                           (mkInsert "s1" "Wifi down" Technical
                              "The lab wifi has been down since Monday morning" None)))
                   (trace_of (StudentDashboard.handleSubmit 1700000000000
                                StudentDashboard.accepting_backend s))).
  { vm_compute. left. reflexivity. }
  destruct (handleSubmit_insert_is_validated 1700000000000
              StudentDashboard.accepting_backend s _ Hin)
    as (u & v & Hu & Hv & Hrow & _).
  exists u, v. split; [exact Hu|]. split; [exact Hv|].
  injection Hrow as _ Ht _ _. now symmetry.
Defined.

(** ** Loading the lists *)

(** X12: when a list request is answered with an error, neither dashboard
    throws and neither replaces the list it shows; each shows one error
    toast.  The admin dashboard then turns [loading] off, also when only
    the profiles request failed (the complaints already fetched are
    dropped), while the student dashboard leaves [loading] as it was. *)
Theorem fetchComplaints_on_error :
  forall (sb : StudentDashboard.backend) (ss : StudentDashboard.state)
         (u : AuthContext.User) (lb : AdminDashboard.listing) (sa : AdminDashboard.state)
         (data : option (list Schema.complaint)) (pdata : option (list Schema.profile))
         (rows : list Schema.complaint) (e : string),
    let student :=
      StudentDashboard.fetchComplaints
        (StudentDashboard.mkBackend (StudentDashboard.upload_response sb)
           (StudentDashboard.public_url sb) (StudentDashboard.insert_response sb)
           (Returned data (Some e)))
        (StudentDashboard.mkState (Some u) (StudentDashboard.complaints ss)
           (StudentDashboard.loading ss) (StudentDashboard.submitting ss)
           (StudentDashboard.open ss) (StudentDashboard.title ss)
           (StudentDashboard.category ss) (StudentDashboard.description ss)
           (StudentDashboard.file ss) (StudentDashboard.uploading ss)) in
    let admin1 :=
      AdminDashboard.fetchComplaints
        (AdminDashboard.mkListing (Returned data (Some e))
                                  (AdminDashboard.profiles_response lb)) sa in
    let admin2 :=
      AdminDashboard.fetchComplaints
        (AdminDashboard.mkListing (Returned (Some rows) None)
                                  (fun _ => Returned pdata (Some e))) sa in
    (value_of student = Normal tt
     /\ StudentDashboard.complaints (state_of student) = StudentDashboard.complaints ss
     /\ StudentDashboard.loading (state_of student) = StudentDashboard.loading ss
     /\ filter is_toast (trace_of student)
        = [ToastError (Text "Failed to load complaints")])
    /\ (value_of admin1 = Normal tt
        /\ AdminDashboard.complaints (state_of admin1) = AdminDashboard.complaints sa
        /\ AdminDashboard.loading (state_of admin1) = false
        /\ trace_of admin1
           = [Net SelectAllComplaints; ToastError (Text "Failed to load complaints")])
    /\ (value_of admin2 = Normal tt
        /\ AdminDashboard.complaints (state_of admin2) = AdminDashboard.complaints sa
        /\ AdminDashboard.loading (state_of admin2) = false
        /\ filter is_toast (trace_of admin2)
           = [ToastError (Text "Failed to load user profiles")]).
Proof.
  intros. cbv zeta.
  refine (conj (conj _ (conj _ (conj _ _)))
               (conj (conj _ (conj _ (conj _ _))) (conj _ (conj _ (conj _ _)))));
    try reflexivity; destruct data; reflexivity.
Qed.

(** ** Pieces of the rendering *)

Lemma length_append (a b : string) :
  String.length (a ++ b) = String.length a + String.length b.
Proof. induction a as [|c a IH]; cbn; [reflexivity|now rewrite IH]. Qed.

Lemma length_substring_0 (n : nat) (s : string) :
  n <= String.length s -> String.length (String.substring 0 n s) = n.
Proof.
  revert s. induction n as [|n IH]; intros s Hle.
  - destruct s; reflexivity.
  - destruct s as [|c s]; cbn in Hle; [lia|]. cbn. rewrite IH; [reflexivity|lia].
Qed.

Lemma substring_0_prefix (n : nat) (s : string) :
  n <= String.length s -> String.prefix (String.substring 0 n s) s = true.
Proof.
  revert s. induction n as [|n IH]; intros s Hle.
  - destruct s; reflexivity.
  - destruct s as [|c s]; cbn in Hle; [lia|]. cbn.
    destruct (ascii_dec c c) as [_|Hne]; [|congruence]. apply IH. lia.
Qed.

(** X13: the badge beside the file input never shows more than 23
    characters: a name of at most 20 characters is shown whole, a longer one
    as its first 20 characters followed by three dots. *)
Theorem file_badge_bounded :
  forall f : File,
    String.length (StudentDashboard.file_badge f) <= 23
    /\ (String.length (file_name f) <= 20 -> StudentDashboard.file_badge f = file_name f)
    /\ (20 < String.length (file_name f) ->
        String.length (StudentDashboard.file_badge f) = 23
        /\ exists head, StudentDashboard.file_badge f = (head ++ "...")%string
                        /\ String.length head = 20
                        /\ String.prefix head (file_name f) = true).
Proof.
  intros f. unfold StudentDashboard.file_badge.
  destruct (Nat.ltb_spec 20 (String.length (file_name f))) as [Hlong|Hshort].
  - assert (Hlen : String.length (String.substring 0 20 (file_name f)) = 20)
      by (apply length_substring_0; lia).
    rewrite length_append, Hlen. cbn [String.length].
    repeat split; try lia.
    exists (String.substring 0 20 (file_name f)).
    repeat split; [exact Hlen|apply substring_0_prefix; lia].
  - repeat split; try lia.
Qed.

Lemma count_by_status {A} (status : A -> complaint_status) (l : list A) :
  List.length l
  = List.length (filter (fun c => status_text (status c) =? "Pending") l)
    + List.length (filter (fun c => status_text (status c) =? "Under Review") l)
    + List.length (filter (fun c => status_text (status c) =? "Resolved") l).
Proof.
  induction l as [|c l IH]; [reflexivity|].
  cbn [filter List.length]. destruct (status c); cbn; lia.
Qed.

(** X14: on both dashboards the three status counters add up to the total:
    every complaint is counted under exactly one of Pending, Under Review
    and Resolved. *)
Theorem stats_add_up :
  forall (mine : list Schema.complaint) (every : list AdminDashboard.Complaint),
    StudentDashboard.total (StudentDashboard.stats_of mine)
    = StudentDashboard.pending (StudentDashboard.stats_of mine)
      + StudentDashboard.underReview (StudentDashboard.stats_of mine)
      + StudentDashboard.resolved (StudentDashboard.stats_of mine)
    /\ StudentDashboard.total (AdminDashboard.stats_of every)
       = StudentDashboard.pending (AdminDashboard.stats_of every)
         + StudentDashboard.underReview (AdminDashboard.stats_of every)
         + StudentDashboard.resolved (AdminDashboard.stats_of every).
Proof.
  intros mine every. split.
  - exact (count_by_status Schema.c_status mine).
  - exact (count_by_status (fun c => Schema.c_status (AdminDashboard.row c)) every).
Qed.

Lemma distinct_spec (xs : list uuid) :
  forall seen,
    NoDup (AdminDashboard.distinct seen xs)
    /\ forall x, In x (AdminDashboard.distinct seen xs) <-> In x xs /\ ~ In x seen.
Proof.
  induction xs as [|y xs IH]; intros seen.
  - split; [constructor|]. cbn. intuition.
  - cbn [AdminDashboard.distinct].
    destruct (existsb (fun z => z =? y) seen) eqn:Hseen.
    + destruct (IH seen) as [Hnd Hin]. split; [exact Hnd|].
      intros x. rewrite Hin. cbn [In]. split; [intuition|].
      intros [[->|Hx] Hns]; [|now split].
      exfalso. apply Hns. apply existsb_exists in Hseen.
      destruct Hseen as [z [Hz Hzy]]. apply String.eqb_eq in Hzy. now subst.
    + destruct (IH (y :: seen)) as [Hnd Hin].
      assert (Hny : ~ In y seen).
      { intros Hy. apply (existsb_id_not_in (fun z => z) y seen) in Hseen.
        apply Hseen. now rewrite map_id. }
      split.
      * constructor; [|exact Hnd]. rewrite Hin. cbn [In]. intuition.
      * intros x. cbn [In]. rewrite Hin. cbn [In].
        destruct (string_dec y x) as [->|Hne]; intuition.
Qed.

(** X15: the second read of the admin listing asks for each owner of a
    fetched complaint exactly once: the ids in the request are distinct and
    are the owner ids of the complaints, no more and no fewer. *)
Theorem fetchComplaints_asks_each_owner_once :
  forall (b : AdminDashboard.listing) (s : AdminDashboard.state) (ids : list uuid),
    In (Net (SelectProfiles ids)) (trace_of (AdminDashboard.fetchComplaints b s)) ->
    exists complaintsData,
      AdminDashboard.complaints_response b = Returned (Some complaintsData) None
      /\ NoDup ids
      /\ (forall x, In x ids <-> In x (map Schema.c_user_id complaintsData)).
Proof.
  intros b s ids Hin.
  unfold AdminDashboard.fetchComplaints, bind, emit, throw,
    AdminDashboard.setLoading, AdminDashboard.setComplaints, modify, trace_of in Hin.
  destruct (AdminDashboard.complaints_response b) as [[cd|] [e|]|e];
    cbn in Hin; trace_cases Hin.
  exists cd. split; [reflexivity|].
  assert (Hids : ids = AdminDashboard.distinct [] (map Schema.c_user_id cd)).
  { destruct (AdminDashboard.profiles_response b _) as [pd [e|]|e];
      cbn in Hin; trace_cases Hin; now injection Hin as <-. }
  subst ids. destruct (distinct_spec (map Schema.c_user_id cd) []) as [Hnd Hmem].
  split; [exact Hnd|]. intros x. rewrite Hmem. cbn. intuition.
Qed.

Lemma fetchComplaints_asks_each_owner_once_witness :
  exists complaintsData,
    Returned (Some [Schema.mkComplaint "c1" "s1" "Wifi down" Technical
                      "The lab wifi is down" None Pending None 10 10;
                    Schema.mkComplaint "c2" "s1" "Projector" Facility
                      "The projector is broken" None Pending None 5 5]) None
    = Returned (Some complaintsData) None
    /\ NoDup ["s1"]
    /\ (forall x, In x ["s1"] <-> In x (map Schema.c_user_id complaintsData)).
Proof.
  apply (fetchComplaints_asks_each_owner_once
           (AdminDashboard.mkListing
              (Returned (Some [Schema.mkComplaint "c1" "s1" "Wifi down" Technical
                                 "The lab wifi is down" None Pending None 10 10;
                               Schema.mkComplaint "c2" "s1" "Projector" Facility
                                 "The projector is broken" None Pending None 5 5]) None)
              (fun _ => Returned (Some []) None))
           (AdminDashboard.mkState [] [] true None "all" "all" false Pending "")
           ["s1"]).
  cbn. right. left. reflexivity.
Defined.

(** ** The admin listing against the policies *)

Lemma select_profiles_own (d : Schema.db) (a : uuid) (ids : list uuid)
      (p : Schema.profile) :
  In p (Schema.select_profiles d (Some a) ids) -> Schema.p_id p = a.
Proof.
  unfold Schema.select_profiles. intros Hin. apply filter_In in Hin.
  destruct Hin as [_ Hp]. apply andb_true_iff in Hp. destruct Hp as [Hp _].
  unfold Schema.rls_using, Schema.profiles_policies, Schema.using_holds in Hp.
  cbn [existsb Schema.pol_for Schema.pol_using Schema.command_eqb andb orb] in Hp.
  rewrite orb_false_r in Hp. cbn in Hp. apply String.eqb_eq in Hp. now symmetry.
Qed.

(** X16: the admin dashboard reads [profiles] as the signed-in admin, and
    the only SELECT policy on [profiles] shows a caller its own row.  So
    when the listing is loaded from the database, every complaint filed by
    anyone else carries no profile and is shown as "Unknown" and "N/A",
    whatever profiles the database holds; for a caller with the admin role
    the list does contain every complaint. *)
Theorem admin_listing_shows_others_as_unknown :
  forall (d : Schema.db) (a : uuid) (s : AdminDashboard.state)
         (entry : AdminDashboard.Complaint),
    let r := AdminDashboard.fetchComplaints (AdminDashboard.listing_of d (Some a)) s in
    In entry (AdminDashboard.complaints (state_of r)) ->
    Schema.c_user_id (AdminDashboard.row entry) <> a ->
    AdminDashboard.profiles entry = None
    /\ AdminDashboard.shown_name entry = "Unknown"
    /\ AdminDashboard.shown_email entry = "N/A"
    /\ value_of r = Normal tt
    /\ (Schema.has_role d (Some a) admin = true ->
        forall c, In c (Schema.complaints d) ->
                  In c (map AdminDashboard.row (AdminDashboard.complaints (state_of r)))).
Proof.
  intros d a s entry r Hin Hother.
  assert (Hr : AdminDashboard.complaints (state_of r)
               = AdminDashboard.merge (Schema.select_all_complaints d (Some a))
                   (Some (Schema.select_profiles d (Some a)
                            (AdminDashboard.distinct []
                               (map Schema.c_user_id
                                    (Schema.select_all_complaints d (Some a))))))).
  { reflexivity. }
  assert (Hv : value_of r = Normal tt) by reflexivity.
  rewrite Hr in Hin |- *. clear Hr.
  unfold AdminDashboard.merge in Hin. apply in_map_iff in Hin.
  destruct Hin as [c [<- Hc]]. cbn [AdminDashboard.row] in Hother.
  assert (Hnone : AdminDashboard.find_profile
                    (Some (Schema.select_profiles d (Some a)
                             (AdminDashboard.distinct []
                                (map Schema.c_user_id
                                     (Schema.select_all_complaints d (Some a))))))
                    (Schema.c_user_id c) = None).
  { cbn [AdminDashboard.find_profile]. apply find_none_iff. intros p Hp.
    apply select_profiles_own in Hp. apply String.eqb_neq. congruence. }
  unfold AdminDashboard.shown_name, AdminDashboard.shown_email.
  cbn [AdminDashboard.profiles]. rewrite Hnone.
  refine (conj eq_refl (conj eq_refl (conj eq_refl (conj Hv _)))).
  intros Hadmin c' Hc'. unfold AdminDashboard.merge. rewrite map_map.
  cbn [AdminDashboard.row]. rewrite map_id.
  unfold Schema.select_all_complaints, Schema.order_by_created_at_desc.
  assert (Hvis : In c' (Schema.visible_complaints d (Some a))).
  { unfold Schema.visible_complaints. apply filter_In. split; [exact Hc'|].
    unfold Schema.rls_using, Schema.complaints_policies, Schema.using_holds.
    cbn [existsb Schema.pol_for Schema.pol_using Schema.command_eqb andb orb].
    rewrite Hadmin. now rewrite !orb_true_r. }
  revert Hvis. generalize (Schema.visible_complaints d (Some a)).
  intros l. induction l as [|x xs IH]; [contradiction|].
  cbn [fold_right]. intros Hx.
  assert (Hins : forall y l', In c' (Schema.insert_desc y l') <-> c' = y \/ In c' l').
  { intros y l'. induction l' as [|z zs IHz]; cbn [Schema.insert_desc].
    - cbn. intuition.
    - destruct (Schema.c_created_at z <? Schema.c_created_at y)%Z; cbn [In].
      + intuition.
      + rewrite IHz. intuition. }
  apply Hins. destruct Hx as [->|Hx]; [now left|right; now apply IH].
Qed.

Lemma admin_listing_shows_others_as_unknown_witness :
  AdminDashboard.shown_name
    (AdminDashboard.mkComplaint
       (Schema.mkComplaint "c1" "s1" "Wifi down" Technical "The lab wifi is down" None
                           Pending None 10 10) None) = "Unknown".
Proof.
  pose (d := Schema.mkDb
               [Schema.mkUser "s1" (Some "asha@example.com") (Some "Asha");
                Schema.mkUser "a1" (Some "admin@brototype.com") None]
               [Schema.mkProfile "s1" "Asha" "asha@example.com";
                Schema.mkProfile "a1" "User" "admin@brototype.com"]
               [Schema.mkRole "s1" student; Schema.mkRole "a1" admin]
               [Schema.mkComplaint "c1" "s1" "Wifi down" Technical "The lab wifi is down"
                                   None Pending None 10 10]).
  assert (Hne : "s1" <> "a1") by discriminate.
  destruct (admin_listing_shows_others_as_unknown d "a1"
              (AdminDashboard.mkState [] [] true None "all" "all" false Pending "")
              (AdminDashboard.mkComplaint
                 (Schema.mkComplaint "c1" "s1" "Wifi down" Technical
                    "The lab wifi is down" None Pending None 10 10) None)
              (or_introl eq_refl) Hne) as (_ & Hname & _).
  exact Hname.
Defined.

(** ** The triage dialog *)

Lemma through_dialog_id (remarks : option string) :
  remarks <> Some "" -> AdminDashboard.through_dialog remarks = remarks.
Proof.
  intros Hne. unfold AdminDashboard.through_dialog, or_else, or_null, truthy.
  destruct remarks as [r|]; [|reflexivity].
  destruct (r =? "") eqn:E.
  - apply String.eqb_eq in E. now subst.
  - cbn. now rewrite E.
Qed.

Lemma handleUpdateComplaint_update (b : AdminDashboard.backend)
      (s : AdminDashboard.state) (selected : AdminDashboard.Complaint) :
  AdminDashboard.selectedComplaint s = Some selected ->
  filter is_update (trace_of (AdminDashboard.handleUpdateComplaint b s))
  = [Net (UpdateComplaint (Schema.c_id (AdminDashboard.row selected))
            (mkUpdate (AdminDashboard.newStatus s)
                      (or_null (AdminDashboard.adminRemarks s))))].
Proof.
  intros Hsel. unfold AdminDashboard.handleUpdateComplaint, bind, get. rewrite Hsel.
  destruct b as [upd rel]. cbn [AdminDashboard.update_response AdminDashboard.reload].
  destruct upd as [data [err|]|err]; [reflexivity| |reflexivity].
  cbn. unfold AdminDashboard.fetchComplaints, bind, detached.
  destruct rel as [cr pr].
  cbn [AdminDashboard.complaints_response AdminDashboard.profiles_response].
  destruct cr as [[cd|] [e1|]|e1]; cbn; try reflexivity.
  destruct (pr (AdminDashboard.distinct [] (map Schema.c_user_id cd)))
    as [pd [e2|]|e2]; cbn; reflexivity.
Qed.

(** X17: opening the dialog on a complaint and saving it untouched sends
    that complaint's own status and its remarks as they come back through
    the dialog: the same remarks, except that an empty string turns into
    null.  Unless the remarks were the empty string, the row an admin's
    update writes then differs from the old one in [updated_at] only. *)
Theorem dialog_round_trip :
  forall (c : AdminDashboard.Complaint) (s : AdminDashboard.state)
         (b : AdminDashboard.backend) (now : Z),
    let opened := state_of (AdminDashboard.openComplaintDialog c s) in
    let cols := mkUpdate (Schema.c_status (AdminDashboard.row c))
                  (AdminDashboard.through_dialog
                     (Schema.c_admin_remarks (AdminDashboard.row c))) in
    filter is_update (trace_of (AdminDashboard.handleUpdateComplaint b opened))
    = [Net (UpdateComplaint (Schema.c_id (AdminDashboard.row c)) cols)]
    /\ AdminDashboard.through_dialog (Some "") = None
    /\ (Schema.c_admin_remarks (AdminDashboard.row c) <> Some "" ->
        Schema.update_updated_at_column now (Schema.set_columns cols (AdminDashboard.row c))
        = Schema.update_updated_at_column now (AdminDashboard.row c)).
Proof.
  intros c s b now opened cols.
  refine (conj _ (conj eq_refl _)).
  - rewrite (handleUpdateComplaint_update b opened c eq_refl). reflexivity.
  - intros Hne. unfold cols. rewrite (through_dialog_id _ Hne).
    destruct c as [[id uid ti ca de fu st re cr up] pr]. reflexivity.
Qed.

(** X18: what saving the dialog does besides sending the update.  With no
    complaint selected it does nothing at all.  If the backend answers
    with an error, the dialog keeps its selection, status and remarks, one
    error toast is shown, nothing is reloaded and [updating] is off again.
    If the request itself is rejected, the handler throws and [updating]
    stays on.  On success the dialog is cleared and the list reloaded. *)
Theorem handleUpdateComplaint_outcomes :
  forall (s : AdminDashboard.state) (selected : AdminDashboard.Complaint)
         (reload : AdminDashboard.listing) (data : option unit) (e : string),
    AdminDashboard.selectedComplaint s = Some selected ->
    let sent := Net (UpdateComplaint (Schema.c_id (AdminDashboard.row selected))
                       (mkUpdate (AdminDashboard.newStatus s)
                                 (or_null (AdminDashboard.adminRemarks s)))) in
    let failed := AdminDashboard.handleUpdateComplaint
                    (AdminDashboard.mkBackend (Returned data (Some e)) reload) s in
    let rejected := AdminDashboard.handleUpdateComplaint
                      (AdminDashboard.mkBackend (Rejected e) reload) s in
    let saved := AdminDashboard.handleUpdateComplaint
                   (AdminDashboard.mkBackend (Returned data None) reload) s in
    (failed
     = (Normal tt,
        AdminDashboard.mkState (AdminDashboard.complaints s)
          (AdminDashboard.filteredComplaints s) (AdminDashboard.loading s)
          (Some selected) (AdminDashboard.statusFilter s) (AdminDashboard.categoryFilter s)
          false (AdminDashboard.newStatus s) (AdminDashboard.adminRemarks s),
        [sent; ToastError (Text "Failed to update complaint")]))
    /\ (value_of rejected = Throw (BackendError e)
        /\ AdminDashboard.updating (state_of rejected) = true
        /\ trace_of rejected = [sent])
    /\ (value_of saved = Normal tt
        /\ AdminDashboard.selectedComplaint (state_of saved) = None
        /\ AdminDashboard.newStatus (state_of saved) = Pending
        /\ AdminDashboard.adminRemarks (state_of saved) = ""
        /\ AdminDashboard.updating (state_of saved) = false
        /\ exists rest,
             trace_of saved
             = sent :: ToastSuccess "Complaint updated successfully!"
                    :: Net SelectAllComplaints :: rest)
    /\ (forall (b : AdminDashboard.backend) (idle : AdminDashboard.state),
          AdminDashboard.selectedComplaint idle = None ->
          AdminDashboard.handleUpdateComplaint b idle = (Normal tt, idle, [])).
Proof.
  intros s selected reload data e Hsel sent failed rejected saved.
  destruct s as [cs fs ld sel sf cf up ns ar].
  cbn [AdminDashboard.selectedComplaint] in Hsel. subst sel.
  refine (conj _ (conj _ (conj _ _))).
  - reflexivity.
  - repeat split.
  - unfold saved, AdminDashboard.handleUpdateComplaint, bind, get.
    cbn [AdminDashboard.selectedComplaint AdminDashboard.update_response
         AdminDashboard.reload].
    unfold AdminDashboard.fetchComplaints, bind, detached.
    destruct reload as [cr pr].
    cbn [AdminDashboard.complaints_response AdminDashboard.profiles_response].
    destruct cr as [[cd|] [e1|]|e1]; cbn;
      try (repeat split; eexists; reflexivity).
    destruct (pr (AdminDashboard.distinct [] (map Schema.c_user_id cd)))
      as [pd [e2|]|e2]; cbn; repeat split; eexists; reflexivity.
  - intros b idle Hidle. unfold AdminDashboard.handleUpdateComplaint, bind, get.
    rewrite Hidle. reflexivity.
Qed.

Lemma handleUpdateComplaint_outcomes_witness :
  AdminDashboard.handleUpdateComplaint
    (AdminDashboard.mkBackend (Returned None (Some "permission denied"))
       (AdminDashboard.mkListing (Returned (Some []) None)
                                 (fun _ => Returned (Some []) None)))
    (AdminDashboard.mkState [] [] false
       (Some (AdminDashboard.mkComplaint
                (Schema.mkComplaint "c1" "s1" "Wifi down" Technical
                   "The lab wifi is down" None Pending None 10 10) None))
       "all" "all" false Resolved "Fixed")
  = (Normal tt,
     AdminDashboard.mkState [] [] false
       (Some (AdminDashboard.mkComplaint
                (Schema.mkComplaint "c1" "s1" "Wifi down" Technical
                   "The lab wifi is down" None Pending None 10 10) None))
       "all" "all" false Resolved "Fixed",
     [Net (UpdateComplaint "c1" (mkUpdate Resolved (Some "Fixed")));
      ToastError (Text "Failed to update complaint")]).
Proof.
  pose (sel := AdminDashboard.mkComplaint
                 (Schema.mkComplaint "c1" "s1" "Wifi down" Technical
                    "The lab wifi is down" None Pending None 10 10) None).
  destruct (handleUpdateComplaint_outcomes
              (AdminDashboard.mkState [] [] false (Some sel) "all" "all" false
                                      Resolved "Fixed")
              sel
              (AdminDashboard.mkListing (Returned (Some []) None)
                                        (fun _ => Returned (Some []) None))
              None "permission denied" eq_refl) as [H _].
  exact H.
Defined.

(** ** The create-admin function, further *)

(** X19: the create-admin function never throws: it always answers, with
    status 200 or with status 400 and an error body.  The CORS preflight
    is answered "ok" without any request.  A rejected user listing and a
    failed [createUser] are both turned into a 400 carrying the message,
    and no invocation issues more than one [createUser]. *)
Theorem create_admin_always_answers :
  forall (b : CreateAdmin.backend) (req : CreateAdmin.request),
    let r := CreateAdmin.serve b req tt in
    exists resp,
      value_of r = Normal resp
      /\ (CreateAdmin.status resp = 200
          \/ (CreateAdmin.status resp = 400
              /\ exists msg, CreateAdmin.response_body resp = CreateAdmin.Failure msg))
      /\ List.length (filter is_create_user (trace_of r)) <= 1
      /\ (CreateAdmin.method req = "OPTIONS" ->
          trace_of r = []
          /\ resp = CreateAdmin.mkResponse (CreateAdmin.Plain "ok") 200 false)
      /\ (forall reason,
            CreateAdmin.method req <> "OPTIONS" ->
            CreateAdmin.listUsers b = Rejected reason ->
            trace_of r = [Net ListUsers]
            /\ resp = CreateAdmin.mkResponse (CreateAdmin.Failure reason) 400 true)
      /\ (forall data createError,
            In (Net (CreateUser CreateAdmin.admin_params)) (trace_of r) ->
            CreateAdmin.createUser b = Returned data (Some createError) ->
            resp = CreateAdmin.mkResponse (CreateAdmin.Failure createError) 400 true).
Proof.
  intros b req r. unfold r, CreateAdmin.serve.
  destruct (CreateAdmin.method req =? "OPTIONS") eqn:Hm.
  - eexists. split; [reflexivity|]. apply String.eqb_eq in Hm.
    refine (conj (or_introl eq_refl) (conj _ (conj _ (conj _ _)))).
    + cbn. lia.
    + intros _. split; reflexivity.
    + intros reason Hne. contradiction.
    + intros data createError [].
  - apply String.eqb_neq in Hm.
    unfold try_catch, bind, emit, throw, ret.
    destruct (CreateAdmin.listUsers b) as [existing err|reason].
    + destruct (match existing with
                | Some us => existsb (fun u => is_bootstrap (AuthContext.email u)) us
                | None => false
                end).
      * eexists. split; [reflexivity|].
        refine (conj (or_introl eq_refl) (conj _ (conj _ (conj _ _)))).
        -- cbn. lia.
        -- intros Ho. contradiction.
        -- intros reason _ Hr. discriminate Hr.
        -- intros data createError Hin. cbn in Hin. trace_cases Hin.
      * destruct (CreateAdmin.createUser b) as [[nu|] [ce|]|reason]; cbn;
          eexists; (split; [reflexivity|]);
          (refine (conj _ (conj _ (conj _ (conj _ _))));
           [ first [ left; reflexivity | right; split; [reflexivity|eexists; reflexivity] ]
           | cbn; lia
           | intros Ho; contradiction
           | intros reason' _ Hr; discriminate Hr
           | intros data createError _ Hc; try discriminate Hc;
             injection Hc as _ ->; reflexivity ]).
    + eexists. split; [reflexivity|].
      refine (conj _ (conj _ (conj _ (conj _ _)))).
      * right. split; [reflexivity|eexists; reflexivity].
      * cbn. lia.
      * intros Ho. contradiction.
      * intros reason' _ Hr. injection Hr as <-. split; reflexivity.
      * intros data createError Hin. cbn in Hin. trace_cases Hin.
Qed.

(** X20: the identity the function asks the auth service to create becomes
    an administrator through the trigger alone: once its row is inserted
    (under a new id, into a database of the trigger's shape), it has the
    admin role and the profile name "Admin", and [checkAdminRole] finds it
    admin in the role table even without being told its email. *)
Theorem created_admin_gets_admin_role :
  forall (d : Schema.db) (id : uuid) (st : AuthContext.state),
    Schema.trigger_shaped d ->
    ~ In id (map Schema.au_id (Schema.users d)) ->
    exists d',
      Schema.insert_auth_user (CreateAdmin.created_row id CreateAdmin.admin_params) d
      = Some d'
      /\ Schema.has_role d' (Some id) admin = true
      /\ Schema.has_role d' (Some id) student = false
      /\ In (Schema.mkProfile id "Admin" "admin@brototype.com") (Schema.profiles d')
      /\ AuthContext.isAdmin
           (state_of (AuthContext.checkAdminRole id None
                        (AuthContext.select_admin_role d' (Some id) id) st)) = true.
Proof.
  intros d id st Hd Hfresh.
  pose (NEW := CreateAdmin.created_row id CreateAdmin.admin_params).
  pose proof (insert_auth_user_succeeds NEW d "admin@brototype.com" Hd Hfresh eq_refl)
    as Hins.
  eexists. split; [exact Hins|].
  match type of Hins with _ = Some ?x => set (d' := x) in * end.
  destruct (insert_auth_user_shaped NEW d d' Hd Hins) as (Hd' & Husers & _).
  assert (Hin : In NEW (Schema.users d')).
  { rewrite Husers. apply in_or_app. right. now left. }
  destruct Hd' as (Hnd & Hp & He & Hr).
  assert (Hrole : forall role, Schema.has_role d' (Some id) role
                               = app_role_eqb admin role).
  { intros role. destruct d' as [us ps rs cs].
    cbn [Schema.users Schema.user_roles] in *. subst rs.
    rewrite has_role_shaped.
    exact (existsb_keyed Schema.au_id
             (fun v => app_role_eqb (Schema.role_for v) role) us NEW Hnd Hin). }
  refine (conj (Hrole admin) (conj (Hrole student) (conj _ _))).
  - unfold d'. cbn [Schema.profiles]. apply in_or_app. right. now left.
  - rewrite select_admin_role_has_role.
    + rewrite (Hrole admin). reflexivity.
    + rewrite Hr. now apply roles_of_users_nodup.
Qed.

Lemma created_admin_gets_admin_role_witness :
  exists d',
    Schema.insert_auth_user (CreateAdmin.created_row "a1" CreateAdmin.admin_params)
      Schema.empty_db = Some d'
    /\ Schema.has_role d' (Some "a1") admin = true.
Proof.
  assert (Hfresh : ~ In "a1" (map Schema.au_id (Schema.users Schema.empty_db)))
    by (intros []).
  destruct (created_admin_gets_admin_role Schema.empty_db "a1"
              AuthContext.initial empty_db_shaped Hfresh) as (d' & Hins & Hrole & _).
  exists d'. split; assumption.
Defined.

(** ** The session listener and the redirect *)

(** X21: after the session listener has run, the context holds the
    session's user, and [isAdmin] is true only if there is a user and
    either its email is the bootstrap address or the role query returned a
    row without error; without a session [isAdmin] is false and no request
    was made.  The pages then navigate only once [loading] is off and a
    user is present: to the admin dashboard when [isAdmin], to the student
    dashboard otherwise.  The listener itself never touches [loading]; the
    initial [getSession] turns it off. *)
Theorem onAuthStateChange_then_redirect :
  forall (session_user : option AuthContext.User) (query : response Schema.user_role)
         (st : AuthContext.state),
    let r := AuthContext.onAuthStateChange session_user query st in
    let found := match query with Returned (Some _) None => true | _ => false end in
    let expected := match session_user with
                    | Some u => is_bootstrap (AuthContext.email u) || found
                    | None => false
                    end in
    value_of r = Normal tt
    /\ AuthContext.user (state_of r) = session_user
    /\ AuthContext.isAdmin (state_of r) = expected
    /\ AuthContext.loading (state_of r) = AuthContext.loading st
    /\ (session_user = None -> trace_of r = [])
    /\ AuthContext.redirect (state_of r)
       = (if AuthContext.loading st then None
          else match session_user with
               | Some _ => Some (if expected then "/admin/dashboard"
                                 else "/student/dashboard")
               | None => None
               end)
    /\ AuthContext.loading
         (state_of (AuthContext.onGetSession session_user query st)) = false
    /\ AuthContext.redirect AuthContext.initial = None.
Proof.
  intros session_user query st r found expected.
  unfold r, expected, found, AuthContext.onAuthStateChange, AuthContext.onGetSession,
    AuthContext.redirect, AuthContext.checkAdminRole, bind, try_catch.
  destruct st as [u0 adm ld].
  destruct session_user as [[uid em]|].
  - cbn [AuthContext.id AuthContext.email].
    destruct (is_bootstrap em);
      [|destruct query as [[row|] [e|]|e]];
      destruct ld; cbn; repeat split; intros; discriminate.
  - destruct ld; cbn; repeat split.
Qed.

(** ** The sign-in page *)

Ltac auth_unfold :=
  unfold AuthPage.handleSubmit, AuthPage.setIsSubmitting,
    bind, ret, emit, modify, get, throw, try_catch, finally;
  cbn [AuthPage.isLogin AuthPage.email AuthPage.password AuthPage.fullName
       AuthPage.confirmPassword AuthPage.isSubmitting].


(** X23: signing up.  The form is accepted exactly when, besides the
    conditions on email and password, the trimmed name has 2 to 100
    characters and the confirmation equals the password.  When all fields
    are fine but the confirmation differs, [signUp] is not consulted: the
    only effect is the toast "Passwords don't match". *)
Theorem signup_needs_matching_passwords :
  forall (is_email : string -> bool)
         (signIn : string -> string -> Eff AuthPage.state (option string))
         (signUp : string -> string -> string -> Eff AuthPage.state (option string))
         (email password fullName confirmPassword : string) (submitting : bool),
    let s := AuthPage.mkState false email password fullName confirmPassword submitting in
    let e := StudentDashboard.trim email in
    let n := StudentDashboard.trim fullName in
    let fields := is_email e && negb (255 <? String.length e)%nat
                  && negb (String.length password <? 6)%nat
                  && negb (100 <? String.length password)%nat
                  && negb (String.length n <? 2)%nat
                  && negb (100 <? String.length n)%nat in
    (forall v, AuthPage.signupSchema_parse is_email email password fullName confirmPassword
               = inl v
               <-> fields = true /\ password = confirmPassword
                   /\ v = AuthPage.mkSignup e password n)
    /\ (fields = true -> password <> confirmPassword ->
        AuthPage.handleSubmit is_email signIn signUp s
        = (Normal tt,
           AuthPage.mkState false email password fullName confirmPassword false,
           [ToastError (Text "Passwords don't match")])).
Proof.
  intros is_email signIn signUp email password fullName confirmPassword submitting
         s e n fields.
  unfold fields, s. split.
  - intros v. unfold AuthPage.signupSchema_parse, AuthPage.email_issues,
      AuthPage.password_issues, AuthPage.fullName_issues.
    fold e n.
    destruct (String.eqb_spec password confirmPassword) as [Heq|Hne];
      destruct (is_email e), (255 <? String.length e)%nat,
        (String.length password <? 6)%nat, (100 <? String.length password)%nat,
        (String.length n <? 2)%nat, (100 <? String.length n)%nat;
      cbn [negb andb app];
      (split; [intros Hv; try discriminate Hv; injection Hv as <-; now repeat split
              |intros (Hf & Hp & Hv); try discriminate Hf; try contradiction;
               now subst v]).
  - intros Hf Hne. auth_unfold.
    unfold AuthPage.signupSchema_parse, AuthPage.email_issues,
      AuthPage.password_issues, AuthPage.fullName_issues.
    fold e n.
    apply String.eqb_neq in Hne. rewrite Hne.
    destruct (is_email e), (255 <? String.length e)%nat,
      (String.length password <? 6)%nat, (100 <? String.length password)%nat,
      (String.length n <? 2)%nat, (100 <? String.length n)%nat;
      try discriminate Hf. reflexivity.
Qed.

Lemma signup_needs_matching_passwords_witness :
  AuthPage.handleSubmit (fun e => AuthPage.includes e "@")
    (fun _ _ => ret None) (fun _ _ _ => ret None)
    (AuthPage.mkState false "asha@example.com" "secret1" "Asha" "secret2" false)
  = (Normal tt,
     AuthPage.mkState false "asha@example.com" "secret1" "Asha" "secret2" false,
     [ToastError (Text "Passwords don't match")]).
Proof.
  assert (Hne : "secret1" <> "secret2") by discriminate.
  destruct (signup_needs_matching_passwords (fun e => AuthPage.includes e "@")
              (fun _ _ => ret None) (fun _ _ _ => ret None)
              "asha@example.com" "secret1" "Asha" "secret2" false) as [_ H].
  apply H; [reflexivity|exact Hne].
Defined.
